(** * gcpy / obspack_fill.py : [make_ObsPack_Input_netcdfs]

    A shallow embedding of the ObsPack input generator and the proofs of
    the properties stated about it.

    Conventions of the model.
    - A Python [datetime.datetime] is a record of civil fields; its
      arithmetic goes through proleptic Gregorian ordinals as CPython's
      [datetime] does ([_ymd2ord], [_ord2ymd]).
    - A pandas [Timestamp] is its [value]: nanoseconds since
      1970-01-01 00:00:00, an integer.  pandas stores it in 64 bits; the
      model uses unbounded integers, so it speaks about windows inside the
      representable range (years 1677 to 2262).
    - A pandas Series is used by the source through positional access
      only ([s[t]], [s[-1]], [s[:k]]), so it is a list.
    - Python exceptions are values of [exn]; a computation that may raise
      returns a [result].
    - Date strings are accepted in the documented, zero-padded layout
      [YYYYMMDD HH:MM:SS] only.
    - The written files are an explicit list of (path, dataset) pairs that
      survives an exception, as files on disk do. *)

From Stdlib Require Import ZArith List Bool Lia String Ascii.
From Stdlib Require Import DecimalString DecimalZ DecimalFacts.
From Stdlib Require Import PrimFloat SpecFloat FloatOps.
Import ListNotations.
Local Open Scope Z_scope.

(** ** Exceptions *)

Inductive exn : Type :=
| ValueError          (* strptime / astype(int) / shape mismatch *)
| IndexError          (* positional access out of bounds *)
| ZeroDivisionError   (* a zero stride in the range expansion *)
| UnicodeEncodeError. (* a non-ASCII character stored in an S1 array *)

Inductive result (A : Type) : Type :=
| Ok (a : A)
| Raise (e : exn).
Arguments Ok {A} a.
Arguments Raise {A} e.

Definition bind {A B} (r : result A) (k : A -> result B) : result B :=
  match r with
  | Ok a => k a
  | Raise e => Raise e
  end.

Notation "'let*' x ':=' r 'in' k" := (bind r (fun x => k))
  (at level 10, x pattern, r at level 100, k at level 200).

(** ** The calendar (CPython's datetime.py) *)

Module Calendar.

Definition _DAYS_IN_MONTH : list Z :=
  [-1; 31; 28; 31; 30; 31; 30; 31; 31; 30; 31; 30; 31].

Definition _DAYS_BEFORE_MONTH : list Z :=
  [-1; 0; 31; 59; 90; 120; 151; 181; 212; 243; 273; 304; 334].

Definition lookup (tbl : list Z) (i : Z) : Z := nth (Z.to_nat i) tbl (-1).

Definition _is_leap (year : Z) : bool :=
  (year mod 4 =? 0) && (negb (year mod 100 =? 0) || (year mod 400 =? 0)).

Definition _days_before_year (year : Z) : Z :=
  let y := year - 1 in
  y * 365 + y / 4 - y / 100 + y / 400.

Definition _days_in_month (year month : Z) : Z :=
  if (month =? 2) && _is_leap year then 29 else lookup _DAYS_IN_MONTH month.

Definition _days_before_month (year month : Z) : Z :=
  lookup _DAYS_BEFORE_MONTH month
  + (if (2 <? month) && _is_leap year then 1 else 0).

Definition _ymd2ord (year month day : Z) : Z :=
  _days_before_year year + _days_before_month year month + day.

Definition _DI400Y : Z := 146097.
Definition _DI100Y : Z := 36524.
Definition _DI4Y : Z := 1461.

(** The tail of [_ord2ymd]: month and day from the day of the year [n]
    (from 0) and the leap flag. *)
Definition month_day (leapyear : bool) (n : Z) : Z * Z :=
  let month := Z.shiftr (n + 50) 5 in
  let preceding :=
    lookup _DAYS_BEFORE_MONTH month
    + (if (2 <? month) && leapyear then 1 else 0) in
  if n <? preceding then
    let month' := month - 1 in
    let preceding' :=
      preceding - (lookup _DAYS_IN_MONTH month'
                   + (if (month' =? 2) && leapyear then 1 else 0)) in
    (month', n - preceding' + 1)
  else (month, n - preceding + 1).

Definition _ord2ymd (n0 : Z) : Z * Z * Z :=
  let n := n0 - 1 in
  let n400 := n / _DI400Y in
  let n := n mod _DI400Y in
  let year := n400 * 400 + 1 in
  let n100 := n / _DI100Y in
  let n := n mod _DI100Y in
  let n4 := n / _DI4Y in
  let n := n mod _DI4Y in
  let n1 := n / 365 in
  let n := n mod 365 in
  let year := year + (n100 * 100 + n4 * 4 + n1) in
  if (n1 =? 4) || (n100 =? 4) then (year - 1, 12, 31)
  else
    let leapyear := (n1 =? 3) && (negb (n4 =? 24) || (n100 =? 3)) in
    let '(month, day) := month_day leapyear n in
    (year, month, day).

End Calendar.

Import Calendar.

(** ** Python strings and integers *)

Module Py.

(** [str(n)] for an integer. *)
Definition str (n : Z) : string := NilZero.string_of_int (Z.to_int n).

(** [int(s)], as [astype(int)] applies it to each formatted field. *)
Definition int (s : string) : result Z :=
  match NilZero.int_of_string s with
  | Some d => Ok (Z.of_int d)
  | None => Raise ValueError
  end.

Fixpoint repeat_char (c : ascii) (n : nat) : string :=
  match n with
  | O => EmptyString
  | S k => String c (repeat_char c k)
  end.

(** [s.ljust(width, fill)]: pads on the right, never truncates. *)
Definition ljust (s : string) (width : nat) (fill : ascii) : string :=
  (s ++ repeat_char fill (width - String.length s))%string.

(** [s.zfill(width)] for an unsigned numeral, the padding of [%m], [%d],
    [%H], [%M], [%S] and of the four-digit year. *)
Definition zfill (s : string) (width : nat) : string :=
  (repeat_char "0" (width - String.length s) ++ s)%string.

(** [s.split(' ')]: the pieces between single spaces, never empty. *)
Fixpoint split_space (s : string) : list string :=
  match s with
  | EmptyString => [EmptyString]
  | String c s' =>
      if Ascii.eqb c " " then EmptyString :: split_space s'
      else match split_space s' with
           | h :: t => String c h :: t
           | [] => [String c EmptyString]
           end
  end.

(** [l[i]] for a non-negative position. *)
Definition getitem {A} (l : list A) (i : nat) : result A :=
  match nth_error l i with
  | Some x => Ok x
  | None => Raise IndexError
  end.

(** [l[-1]]. *)
Definition getlast {A} (l : list A) : result A :=
  match l with
  | [] => Raise IndexError
  | _ => getitem l (List.length l - 1)
  end.

(** [l[-1] = v]. *)
Definition setlast {A} (l : list A) (v : A) : result (list A) :=
  match l with
  | [] => Raise IndexError
  | _ => Ok (firstn (List.length l - 1) l ++ [v])
  end.

(** [l[:k]]; a negative [k] counts from the end. *)
Definition slice_to {A} (l : list A) (k : Z) : list A :=
  if 0 <=? k then firstn (Z.to_nat k) l
  else firstn (List.length l - Z.to_nat (- k)) l.

Fixpoint mapM {A B} (f : A -> result B) (l : list A) : result (list B) :=
  match l with
  | [] => Ok []
  | x :: l' =>
      let* y := f x in
      let* ys := mapM f l' in
      Ok (y :: ys)
  end.

End Py.

(** ** datetime.datetime and datetime.timedelta *)

Record datetime : Type := mk_datetime {
  year : Z; month : Z; day : Z; hour : Z; minute : Z; second : Z
}.

Record timedelta : Type := mk_timedelta { days : Z; seconds : Z }.

Module Datetime.

(** The constructor's checks. *)
Definition new (y mo d h mi s : Z) : result datetime :=
  if (1 <=? y) && (y <=? 9999)
     && (1 <=? mo) && (mo <=? 12)
     && (1 <=? d) && (d <=? _days_in_month y mo)
     && (0 <=? h) && (h <=? 23)
     && (0 <=? mi) && (mi <=? 59)
     && (0 <=? s) && (s <=? 59)
  then Ok (mk_datetime y mo d h mi s)
  else Raise ValueError.

Definition digit (c : ascii) : option Z :=
  let n := Z.of_nat (nat_of_ascii c) in
  if (48 <=? n) && (n <=? 57) then Some (n - 48) else None.

Fixpoint number (cs : list ascii) (acc : Z) : option Z :=
  match cs with
  | [] => Some acc
  | c :: cs' =>
      match digit c with
      | Some v => number cs' (10 * acc + v)
      | None => None
      end
  end.

(** [datetime.strptime(s, '%Y%m%d %H:%M:%S')] on the zero-padded layout. *)
Definition strptime (s : string) : result datetime :=
  match list_ascii_of_string s with
  | [cy1; cy2; cy3; cy4; cm1; cm2; cd1; cd2; sp;
     ch1; ch2; c1; ci1; ci2; c2; cs1; cs2] =>
      if Ascii.eqb sp " " && Ascii.eqb c1 ":" && Ascii.eqb c2 ":" then
        match number [cy1; cy2; cy3; cy4] 0, number [cm1; cm2] 0,
              number [cd1; cd2] 0, number [ch1; ch2] 0,
              number [ci1; ci2] 0, number [cs1; cs2] 0 with
        | Some y, Some mo, Some d, Some h, Some mi, Some sec =>
            new y mo d h mi sec
        | _, _, _, _, _, _ => Raise ValueError
        end
      else Raise ValueError
  | _ => Raise ValueError
  end.

Definition toordinal (dt : datetime) : Z :=
  _ymd2ord (year dt) (month dt) (day dt).

Definition secs_of_day (dt : datetime) : Z :=
  second dt + minute dt * 60 + hour dt * 3600.

(** [a - b]: a normalised timedelta, [0 <= seconds < 86400]. *)
Definition sub (a b : datetime) : timedelta :=
  let d := toordinal a - toordinal b in
  let s := secs_of_day a - secs_of_day b in
  mk_timedelta (d + s / 86400) (s mod 86400).

End Datetime.

(** ** pandas Timestamps and ranges *)

Definition Timestamp : Type := Z.   (* nanoseconds since the epoch *)
Definition Series : Type := list Timestamp.

Module Pd.

Definition ns_per_s : Z := 1000000000.
Definition epoch_ordinal : Z := 719163.   (* 1970-01-01 *)

Definition of_fields (y mo d h mi s : Z) : Timestamp :=
  (((_ymd2ord y mo d - epoch_ordinal) * 86400 + h * 3600 + mi * 60 + s)
   * ns_per_s).

Definition of_datetime (dt : datetime) : Timestamp :=
  of_fields (year dt) (month dt) (day dt) (hour dt) (minute dt) (second dt).

(** [pd.Timestamp(s)] for a string in the documented layout. *)
Definition to_Timestamp (s : string) : result Timestamp :=
  let* dt := Datetime.strptime s in Ok (of_datetime dt).

(** [Timedelta] values, in nanoseconds. *)
Definition timedelta_days (n : Z) : Z := n * 86400 * ns_per_s.
Definition timedelta_seconds (n : Z) : Z := n * ns_per_s.

(** The calendar fields of a Timestamp. *)
Definition ymd (t : Timestamp) : Z * Z * Z :=
  _ord2ymd ((t / ns_per_s) / 86400 + epoch_ordinal).
Definition sod (t : Timestamp) : Z := (t / ns_per_s) mod 86400.
Definition f_year (t : Timestamp) : Z := fst (fst (ymd t)).
Definition f_month (t : Timestamp) : Z := snd (fst (ymd t)).
Definition f_day (t : Timestamp) : Z := snd (ymd t).
Definition f_hour (t : Timestamp) : Z := sod t / 3600.
Definition f_minute (t : Timestamp) : Z := (sod t mod 3600) / 60.
Definition f_second (t : Timestamp) : Z := sod t mod 60.

(** [pd.Timestamp(year, month, day, hour, minute, second)], with the
    constructor's checks of the fields of the date and of the time. *)
Definition Timestamp_of_fields (y mo d h mi s : Z) : result Timestamp :=
  if (1 <=? mo) && (mo <=? 12)
     && (1 <=? d) && (d <=? _days_in_month y mo)
     && (0 <=? h) && (h <=? 23)
     && (0 <=? mi) && (mi <=? 59)
     && (0 <=? s) && (s <=? 59)
  then Ok (of_fields y mo d h mi s)
  else Raise ValueError.

(** [t.strftime(fmt)] for the six one-field formats the source uses. *)
Inductive field : Type := fY | fm | fd | fH | fM | fS.

Definition field_value (f : field) (t : Timestamp) : Z :=
  match f with
  | fY => f_year t
  | fm => f_month t
  | fd => f_day t
  | fH => f_hour t
  | fM => f_minute t
  | fS => f_second t
  end.

Definition field_width (f : field) : nat :=
  match f with fY => 4%nat | _ => 2%nat end.

Definition strftime (f : field) (t : Timestamp) : string :=
  Py.zfill (Py.str (field_value f t)) (field_width f).

(** [str(t)] of a whole-second Timestamp: [YYYY-MM-DD HH:MM:SS]. *)
Definition str (t : Timestamp) : string :=
  (strftime fY t ++ "-" ++ strftime fm t ++ "-" ++ strftime fd t ++ " "
   ++ strftime fH t ++ ":" ++ strftime fM t ++ ":" ++ strftime fS t)%string.

(** [np.arange(b, e, stride)] for a non-zero stride. *)
Definition np_arange (b e stride : Z) : list Z :=
  map (fun i => b + Z.of_nat i * stride)
      (seq 0 (Z.to_nat (- ((b - e) / stride)))).

(** The range of a fixed-stride frequency between two instants, both
    given (pandas' [generate_regular_range]). *)
Definition generate_regular_range (b iend stride : Z) : result Series :=
  if stride =? 0 then Raise ZeroDivisionError
  else
    let e := b + (iend - b) / stride * stride + stride / 2 + 1 in
    Ok (np_arange b e stride).

(** [pd.date_range(start, end, freq='1D')]. *)
Definition date_range_1D (b iend : Timestamp) : result Series :=
  generate_regular_range b iend (timedelta_days 1).

(** [pd.date_range(start, end, freq=str(n) + 's')]. *)
Definition date_range_s (b iend : Timestamp) (n : Z) : result Series :=
  generate_regular_range b iend (timedelta_seconds n).

End Pd.

(** ** The dataset handed to the writer *)

(** The six variables of one file; [F] is the 32-bit float type.  Every
    variable is indexed by [obs] in its first dimension.  The attributes
    (units, fill values, texts) are constants of the source and carry no
    data. *)
Record Dataset (F : Type) : Type := mk_Dataset {
  latitude : list F;
  longitude : list F;
  altitude : list F;
  time_components : list (list Z);
  obspack_id : list (list ascii);
  CT_sampling_strategy : list Z
}.
Arguments mk_Dataset {F}.
Arguments latitude {F}.
Arguments longitude {F}.
Arguments altitude {F}.
Arguments time_components {F}.
Arguments obspack_id {F}.
Arguments CT_sampling_strategy {F}.

(** A written file: its path and its content. *)
Definition File (F : Type) : Type := (string * Dataset F)%type.

(** [np.full(n, v)]. *)
Definition np_full {A} (n : nat) (v : A) : list A := repeat v n.

(** [np.arange(0, n).astype(str)]. *)
Definition arange_str (n : nat) : list string :=
  map (fun i => Py.str (Z.of_nat i)) (seq 0 n).

(** [dfi.to_numpy()] of the six integer columns: one row per record. *)
Fixpoint to_numpy (c1 c2 c3 c4 c5 c6 : list Z) : list (list Z) :=
  match c1, c2, c3, c4, c5, c6 with
  | x1 :: r1, x2 :: r2, x3 :: r3, x4 :: r4, x5 :: r5, x6 :: r6 =>
      [x1; x2; x3; x4; x5; x6] :: to_numpy r1 r2 r3 r4 r5 r6
  | _, _, _, _, _, _ => []
  end.

(** [dfi['datetime'].dt.strftime(fmt).astype(int)]. *)
Definition column (f : Pd.field) (dts : Series) : result (list Z) :=
  Py.mapM (fun t => Py.int (Pd.strftime f t)) dts.

Definition is_ascii (c : ascii) : bool := (nat_of_ascii c <? 128)%nat.

(** [ids[count, :] = indv_row]: a row of the (n, 200) array of single
    bytes takes exactly 200 characters, each of them ASCII.  (A list of
    one character would be broadcast, but a padded row never has fewer
    than 200.) *)
Definition set_row (indv_row : list ascii) : result (list ascii) :=
  if negb (List.length indv_row =? 200)%nat then Raise ValueError
  else if forallb is_ascii indv_row then Ok indv_row
  else Raise UnicodeEncodeError.

(** The loop that fills [ids]. *)
Definition fill_ids (prefix : string) (n : list string)
  : result (list (list ascii)) :=
  Py.mapM (fun stri =>
             set_row (list_ascii_of_string
                        (Py.ljust (prefix ++ stri) 200 "_")))
          n.

(** The number of files: [days] in the source. *)
Definition day_count (start endd : datetime) : Z :=
  let delta := Datetime.sub endd start in
  if negb (seconds delta =? 0)
  then days delta + 1   (* add a day if there's some leftover time *)
  else days delta.      (* otherwise stick with the round number *)

(** The day segmentation at the head of the function: [starts2Use] and
    [ends2Use]. *)
Definition day_segments (datestart dateend : string)
  : result (Series * Series) :=
  let* start := Datetime.strptime datestart in
  let* endd := Datetime.strptime dateend in
  let days := day_count start endd in
  let* b := Pd.to_Timestamp datestart in
  let* e := Pd.to_Timestamp dateend in
  let* starts := Pd.date_range_1D b e in
  let starts2Use := Py.slice_to starts days in
  let ends2Use :=
    map (fun s => s + Pd.timedelta_days 1 - Pd.timedelta_seconds 1)
        starts2Use in
  let* last := Py.getlast ends2Use in
  let* ends2Use :=
    if Pd.of_datetime endd <? last
    then Py.setlast ends2Use (Pd.of_datetime endd)
    else Ok ends2Use in
  Ok (starts2Use, ends2Use).

Section Generator.

(** The site coordinates are Python numbers and [np_float32] is numpy's
    conversion to [float32]; no property below depends on how it rounds. *)
Context {pynum float32 : Type} (np_float32 : pynum -> float32).

(** [prefix] in the source; [s.split(' ')[0]] is the head of the
    pieces, which are never empty. *)
Definition id_prefix (sitename datestart dateend : string) : string :=
  (sitename ++ "_from_" ++ hd EmptyString (Py.split_space datestart)
   ++ "_to_" ++ hd EmptyString (Py.split_space dateend) ++ "_n")%string.

(** What one iteration builds from the sampled instants [dts]. *)
Definition build_dataset (sitename : string) (lat lon alt : pynum)
    (datestart dateend : string) (sample_stragety : Z) (dts : Series)
  : result (Dataset float32) :=
  let* c_year := column Pd.fY dts in
  let* c_mon := column Pd.fm dts in
  let* c_day := column Pd.fd dts in
  let* c_hr := column Pd.fH dts in
  let* c_min := column Pd.fM dts in
  let* c_s := column Pd.fS dts in
  let time_components := to_numpy c_year c_mon c_day c_hr c_min c_s in
  let n := arange_str (List.length dts) in
  let prefix := id_prefix sitename datestart dateend in
  let* ids := fill_ids prefix n in
  Ok {| latitude := np_full (List.length dts) (np_float32 lat);
        longitude := np_full (List.length dts) (np_float32 lon);
        altitude := np_full (List.length dts) (np_float32 lon);
        time_components := time_components;
        obspack_id := ids;
        CT_sampling_strategy := np_full (List.length dts) sample_stragety |}.

Definition file_name (sitename : string) (samplefreq : Z)
    (start_t : Timestamp) : string :=
  ("obspack_" ++ sitename ++ "_freq" ++ Py.str samplefreq ++ "s."
   ++ hd EmptyString (Py.split_space (Pd.str start_t)) ++ ".nc")%string.

(** The body of the loop for index [t]. *)
Definition loop_body (sitename : string) (lat lon alt : pynum)
    (datestart dateend : string) (samplefreq sample_stragety : Z)
    (outpath : string) (starts2Use ends2Use : Series) (t : nat)
  : result (File float32) :=
  let* s := Py.getitem starts2Use t in
  let* e := Py.getitem ends2Use t in
  let* dts := Pd.date_range_s s e samplefreq in
  let* ds := build_dataset sitename lat lon alt datestart dateend
                           sample_stragety dts in
  Ok ((outpath ++ file_name sitename samplefreq s)%string, ds).

(** The [for] loop: [written] is what [to_netcdf] has put on disk so far,
    [all_files] the list being returned. *)
Fixpoint for_range (body : nat -> result (File float32)) (ts : list nat)
    (written : list (File float32)) (all_files : list string)
  : list (File float32) * result (list string) :=
  match ts with
  | [] => (written, Ok all_files)
  | t :: ts' =>
      match body t with
      | Raise e => (written, Raise e)
      | Ok f => for_range body ts' (written ++ [f]) (all_files ++ [fst f])
      end
  end.

(** The generator: the files on disk when it stops, and what it returns
    or raises. *)
Definition make_ObsPack_Input_netcdfs (sitename : string)
    (lat lon alt : pynum) (datestart dateend : string)
    (samplefreq sample_stragety : Z) (outpath : string)
  : list (File float32) * result (list string) :=
  match day_segments datestart dateend with
  | Raise e => ([], Raise e)
  | Ok (starts2Use, ends2Use) =>
      for_range (loop_body sitename lat lon alt datestart dateend
                           samplefreq sample_stragety outpath
                           starts2Use ends2Use)
                (seq 0 (List.length starts2Use)) [] []
  end.

End Generator.

(** ** Notions the statements use *)

Fixpoint zrange (lo : Z) (n : nat) : list Z :=
  match n with
  | O => []
  | S k => lo :: zrange (lo + 1) k
  end.

(** What [month_day] must satisfy on one day of a year. *)
Definition month_day_check (leap : bool) (n : Z) : bool :=
  let '(m, d) := month_day leap n in
  (1 <=? m) && (m <=? 12) && (1 <=? d)
  && (d <=? (if (m =? 2) && leap then 29 else lookup _DAYS_IN_MONTH m))
  && (lookup _DAYS_BEFORE_MONTH m
      + (if (2 <? m) && leap then 1 else 0) + d =? n + 1).

(** One day and one second, in nanoseconds. *)
Definition DAY : Z := Pd.timedelta_days 1.
Definition SEC : Z := Pd.timedelta_seconds 1.

(** Seconds since the epoch of a [datetime]. *)
Definition epoch_seconds (dt : datetime) : Z :=
  (Datetime.toordinal dt - Pd.epoch_ordinal) * 86400
  + Datetime.secs_of_day dt.

(** The starts of [n] consecutive days from [b]. *)
Definition segment_starts (b : Timestamp) (n : nat) : Series :=
  map (fun i => b + Z.of_nat i * DAY) (seq 0 n).

(** Their ends: a day less a second after each start, and [e_last] for
    the last one. *)
Definition segment_ends (b e_last : Timestamp) (n : nat) : Series :=
  (map (fun i => b + Z.of_nat i * DAY + DAY - SEC) (seq 0 (n - 1))
   ++ [e_last])%list.

(** Where the last segment stops: at the end of the window when the
    window has a remainder, one second before it otherwise. *)
Definition last_end (start endd : datetime) : Timestamp :=
  if seconds (Datetime.sub endd start) =? 0
  then Pd.of_datetime endd - SEC
  else Pd.of_datetime endd.

(** The row of [time_components] of an instant. *)
Definition time_row (t : Timestamp) : list Z :=
  [Pd.f_year t; Pd.f_month t; Pd.f_day t;
   Pd.f_hour t; Pd.f_minute t; Pd.f_second t].

(** [pd.Timestamp] applied to the six entries of a row. *)
Definition Timestamp_of_row (row : list Z) : result Timestamp :=
  match row with
  | [y; mo; d; h; mi; s] => Pd.Timestamp_of_fields y mo d h mi s
  | _ => Raise ValueError
  end.

(** The identifier of record [i], as a row of characters. *)
Definition id_row (prefix : string) (i : nat) : list ascii :=
  list_ascii_of_string (Py.ljust (prefix ++ Py.str (Z.of_nat i)) 200 "_").

(** An instant not before the first day of year 1, the first day a
    [datetime] can name. *)
Definition after_year_one (x : Timestamp) : Prop :=
  1 <= x / Pd.ns_per_s / 86400 + Pd.epoch_ordinal.

(** The date of an instant as [str] prints it: [YYYY-MM-DD]. *)
Definition date_text (t : Timestamp) : string :=
  (Pd.strftime Pd.fY t ++ "-" ++ Pd.strftime Pd.fm t ++ "-"
   ++ Pd.strftime Pd.fd t)%string.

(** The name of the file of a segment that starts at [s]. *)
Definition path_of (outpath sitename : string) (samplefreq : Z)
    (s : Timestamp) : string :=
  (outpath ++ "obspack_" ++ sitename ++ "_freq" ++ Py.str samplefreq
   ++ "s." ++ date_text s ++ ".nc")%string.

(** The stride of the frequency [str(n) + 's'], in nanoseconds. *)
Definition stride_of (samplefreq : Z) : Z := Pd.timedelta_seconds samplefreq.

(** ** The call of the docstring, and the specification's wording *)

Module Example.

(** numpy's conversion of a Python float (binary64) to [float32]:
    rounding to nearest even on 24 bits. *)
Definition np_float32 (x : float) : spec_float :=
  match Prim2SF x with
  | S754_finite s m e => binary_round 24 128 s m e
  | v => v
  end.

#[local] Set Warnings "-inexact-float".
Definition lat : float := 32.903281%float.
Definition lon : float := (-87.249942)%float.
Definition alt : float := 125%float.
#[local] Set Warnings "inexact-float".

(** The SOAS ground site from 2013-06-01 00:00:00, with strategy 2. *)
Definition soas (dateend : string) (samplefreq : Z) (outpath : string)
  : list (File spec_float) * result (list string) :=
  make_ObsPack_Input_netcdfs np_float32 "SOAS-Ground" lat lon alt
    "20130601 00:00:00" dateend samplefreq 2 outpath.

End Example.

(** The prefix as the specification words it: without the ["_n"] the
    source appends. *)
Definition claimed_prefix (sitename datestart dateend : string) : string :=
  (sitename ++ "_from_" ++ hd EmptyString (Py.split_space datestart)
   ++ "_to_" ++ hd EmptyString (Py.split_space dateend))%string.

(** The segments tile the window from [b] to [e]: the first starts at
    [b], the last ends at [e], and each next one starts a second after
    the one before ends. *)
Definition tiles_window (b e : Timestamp) (starts ends : Series) : Prop :=
  hd_error starts = Some b /\
  Py.getlast ends = Ok e /\
  forall i ei s', nth_error ends i = Some ei ->
                  nth_error starts (S i) = Some s' -> ei + SEC = s'.

(** ** Proofs about the calendar *)

Lemma zrange_In (n : nat) : forall lo x,
  lo <= x < lo + Z.of_nat n -> In x (zrange lo n).
Proof.
  induction n as [|k IH]; intros lo x H.
  - lia.
  - simpl. destruct (Z.eq_dec lo x) as [->|Hne]; [now left|right].
    apply IH. lia.
Qed.

Lemma month_day_checked (leap : bool) (n : Z) :
  0 <= n < 365 + (if leap then 1 else 0) ->
  month_day_check leap n = true.
Proof.
  intros H.
  assert (Hall : forallb (month_day_check leap)
                   (zrange 0 (if leap then 366 else 365)) = true)
    by (destruct leap; vm_compute; reflexivity).
  rewrite forallb_forall in Hall. apply Hall.
  apply zrange_In. destruct leap; lia.
Qed.

Lemma month_day_spec (leap : bool) (n m d : Z) :
  0 <= n < 365 + (if leap then 1 else 0) ->
  month_day leap n = (m, d) ->
  1 <= m <= 12 /\
  1 <= d <= (if (m =? 2) && leap then 29 else lookup _DAYS_IN_MONTH m) /\
  lookup _DAYS_BEFORE_MONTH m + (if (2 <? m) && leap then 1 else 0) + d
  = n + 1.
Proof.
  intros Hn Hmd. pose proof (month_day_checked leap n Hn) as Hc.
  unfold month_day_check in Hc. rewrite Hmd in Hc.
  repeat rewrite andb_true_iff in Hc.
  destruct Hc as [[[[H1 H2] H3] H4] H5]. lia.
Qed.

Lemma days_before_year_decomp (a b c e : Z) :
  0 <= b <= 3 -> 0 <= c <= 24 -> 0 <= e <= 3 ->
  _days_before_year (400 * a + 100 * b + 4 * c + e + 1)
  = 146097 * a + 36524 * b + 1461 * c + 365 * e.
Proof.
  intros Hb Hc He. unfold _days_before_year.
  replace (400 * a + 100 * b + 4 * c + e + 1 - 1)
    with (400 * a + 100 * b + 4 * c + e) by lia.
  set (y := 400 * a + 100 * b + 4 * c + e).
  assert (H4 : y / 4 = 100 * a + 25 * b + c)
    by (symmetry; apply (Z.div_unique y 4 _ e); lia).
  assert (H100 : y / 100 = 4 * a + b)
    by (symmetry; apply (Z.div_unique y 100 _ (4 * c + e)); lia).
  assert (H400 : y / 400 = a)
    by (symmetry; apply (Z.div_unique y 400 _ (100 * b + 4 * c + e)); lia).
  rewrite H4, H100, H400. unfold y. lia.
Qed.

Lemma is_leap_decomp (a b c e : Z) :
  0 <= b <= 3 -> 0 <= c <= 24 -> 0 <= e <= 3 ->
  _is_leap (400 * a + 100 * b + 4 * c + e + 1)
  = (e =? 3) && (negb (c =? 24) || (b =? 3)).
Proof.
  intros Hb Hc He. unfold _is_leap.
  set (y := 400 * a + 100 * b + 4 * c + e + 1).
  destruct (Z.eqb_spec e 3) as [->|Hne].
  - assert (H4 : y mod 4 = 0)
      by (symmetry; apply (Z.mod_unique y 4 (100 * a + 25 * b + c + 1));
          unfold y; lia).
    rewrite H4. simpl.
    destruct (Z.eqb_spec c 24) as [->|Hc24].
    + assert (H100 : y mod 100 = 0)
        by (symmetry; apply (Z.mod_unique y 100 (4 * a + b + 1));
            unfold y; lia).
      rewrite H100. simpl.
      destruct (Z.eqb_spec b 3) as [->|Hb3].
      * assert (H400 : y mod 400 = 0)
          by (symmetry; apply (Z.mod_unique y 400 (a + 1)); unfold y; lia).
        now rewrite H400.
      * assert (H400 : y mod 400 = 100 * (b + 1))
          by (symmetry; apply (Z.mod_unique y 400 a); unfold y; lia).
        rewrite H400. destruct (Z.eqb_spec (100 * (b + 1)) 0); [lia|reflexivity].
    + assert (H100 : y mod 100 = 4 * (c + 1))
        by (symmetry; apply (Z.mod_unique y 100 (4 * a + b)); unfold y; lia).
      rewrite H100. destruct (Z.eqb_spec (4 * (c + 1)) 0); [lia|reflexivity].
  - assert (H4 : y mod 4 = e + 1)
      by (symmetry; apply (Z.mod_unique y 4 (100 * a + 25 * b + c));
          unfold y; lia).
    rewrite H4. destruct (Z.eqb_spec (e + 1) 0); [lia|reflexivity].
Qed.

(** The date computed from an ordinal is a date of the calendar, and its
    ordinal is the one it came from. *)
Lemma ord2ymd_spec (n : Z) :
  let '(y, m, d) := _ord2ymd n in
  _ymd2ord y m d = n /\ 1 <= m <= 12 /\ 1 <= d <= _days_in_month y m.
Proof.
  unfold _ord2ymd, _DI400Y, _DI100Y, _DI4Y.
  set (n0 := n - 1).
  set (a := n0 / 146097). set (r1 := n0 mod 146097).
  set (b := r1 / 36524). set (r2 := r1 mod 36524).
  set (c := r2 / 1461). set (r3 := r2 mod 1461).
  set (e := r3 / 365). set (r := r3 mod 365).
  assert (E1 : n0 = 146097 * a + r1 /\ 0 <= r1 < 146097)
    by (unfold a, r1; split;
        [apply Z.div_mod; lia | apply Z.mod_pos_bound; lia]).
  assert (E2 : r1 = 36524 * b + r2 /\ 0 <= r2 < 36524)
    by (unfold b, r2; split;
        [apply Z.div_mod; lia | apply Z.mod_pos_bound; lia]).
  assert (E3 : r2 = 1461 * c + r3 /\ 0 <= r3 < 1461)
    by (unfold c, r3; split;
        [apply Z.div_mod; lia | apply Z.mod_pos_bound; lia]).
  assert (E4 : r3 = 365 * e + r /\ 0 <= r < 365)
    by (unfold e, r; split;
        [apply Z.div_mod; lia | apply Z.mod_pos_bound; lia]).
  assert (Bb : 0 <= b <= 4)
    by (unfold b; split;
        [apply Z.div_pos; lia | apply Z.div_le_upper_bound; lia]).
  assert (Bc : 0 <= c <= 24).
  { unfold c; split; [apply Z.div_pos; lia|].
    apply Z.lt_succ_r. apply Z.div_lt_upper_bound; lia. }
  assert (Be : 0 <= e <= 4)
    by (unfold e; split;
        [apply Z.div_pos; lia | apply Z.div_le_upper_bound; lia]).
  assert (En : n = n0 + 1) by (unfold n0; lia).
  clearbody a r1 b r2 c r3 e r n0.
  destruct (Z.eqb_spec e 4) as [He4|He4]; simpl orb.
  - (* last day of a four-year cycle *)
    subst e. assert (Hb3 : b <= 3) by lia.
    replace (a * 400 + 1 + (b * 100 + c * 4 + 4) - 1)
      with (400 * a + 100 * b + 4 * c + 3 + 1) by lia.
    change (_days_in_month (400 * a + 100 * b + 4 * c + 3 + 1) 12) with 31.
    split; [|lia].
    unfold _ymd2ord, _days_before_month.
    rewrite days_before_year_decomp by lia.
    rewrite is_leap_decomp by lia.
    change (lookup _DAYS_BEFORE_MONTH 12) with 334.
    change (2 <? 12) with true. rewrite Z.eqb_refl. simpl andb.
    destruct (Z.eqb_spec c 24) as [->|Hc24]; simpl negb; simpl orb.
    + destruct (Z.eqb_spec b 3) as [->|Hb']; lia.
    + lia.
  - destruct (Z.eqb_spec b 4) as [Hb4|Hb4].
    + (* last day of a 400-year cycle *)
      subst b. assert (c = 0 /\ e = 0) as [-> ->] by lia.
      replace (a * 400 + 1 + (4 * 100 + 0 * 4 + 0) - 1)
        with (400 * a + 100 * 3 + 4 * 24 + 3 + 1) by lia.
      change (_days_in_month (400 * a + 100 * 3 + 4 * 24 + 3 + 1) 12)
        with 31.
      split; [|lia].
      unfold _ymd2ord, _days_before_month.
      rewrite days_before_year_decomp by lia.
      rewrite is_leap_decomp by lia.
      change (lookup _DAYS_BEFORE_MONTH 12) with 334.
      match goal with
      | |- context [if ?cnd then 1 else 0] => change cnd with true
      end.
      cbv iota. lia.
    + set (leap := (e =? 3) && (negb (c =? 24) || (b =? 3))).
      destruct (month_day leap r) as [m d] eqn:Hmd.
      assert (Hr : 0 <= r < 365 + (if leap then 1 else 0)).
      { destruct leap eqn:Hl; [lia|].
        unfold leap in Hl. split; [lia|]. lia. }
      destruct (month_day_spec leap r m d Hr Hmd) as (Hm & Hd & Heq).
      replace (a * 400 + 1 + (b * 100 + c * 4 + e))
        with (400 * a + 100 * b + 4 * c + e + 1) by lia.
      unfold _ymd2ord, _days_before_month, _days_in_month.
      rewrite days_before_year_decomp by lia.
      rewrite is_leap_decomp by lia.
      fold leap. lia.
Qed.

(** ** Facts about strings and numerals *)

Module PyFacts.

Lemma mapM_Forall2 {A B} (f : A -> result B) (l : list A) :
  forall ys, Py.mapM f l = Ok ys -> Forall2 (fun x y => f x = Ok y) l ys.
Proof.
  induction l as [|x l IH]; simpl; intros ys H.
  - injection H as <-. constructor.
  - destruct (f x) as [y|] eqn:Hx; simpl in H; [|discriminate].
    destruct (Py.mapM f l) as [ys'|] eqn:Hl; simpl in H; [|discriminate].
    injection H as <-. constructor; auto.
Qed.

Lemma mapM_length {A B} (f : A -> result B) (l : list A) (ys : list B) :
  Py.mapM f l = Ok ys -> List.length ys = List.length l.
Proof.
  intros H. apply mapM_Forall2 in H.
  symmetry. eapply Forall2_length; eauto.
Qed.

(** When every element is mapped by a total function, [mapM] is [map]. *)
Lemma mapM_map {A B} (f : A -> result B) (g : A -> B) (l : list A) :
  (forall x y, In x l -> f x = Ok y -> y = g x) ->
  forall ys, Py.mapM f l = Ok ys -> ys = map g l.
Proof.
  intros Hfg ys H. apply mapM_Forall2 in H.
  induction H as [|x y l ys Hxy _ IH]; simpl; [reflexivity|].
  f_equal; [apply Hfg; simpl; auto|].
  apply IH. intros; apply Hfg; simpl; auto.
Qed.

Lemma mapM_ok {A B} (f : A -> result B) (g : A -> B) (l : list A) :
  (forall x, In x l -> f x = Ok (g x)) -> Py.mapM f l = Ok (map g l).
Proof.
  induction l as [|x l IH]; simpl; intros H; [reflexivity|].
  rewrite H by auto. simpl. rewrite IH by auto. reflexivity.
Qed.

Lemma append_assoc (s1 s2 s3 : string) :
  ((s1 ++ s2) ++ s3 = s1 ++ (s2 ++ s3))%string.
Proof.
  induction s1 as [|c s1 IH]; simpl; [reflexivity|now rewrite IH].
Qed.

Lemma list_ascii_app (s1 s2 : string) :
  list_ascii_of_string (s1 ++ s2)
  = (list_ascii_of_string s1 ++ list_ascii_of_string s2)%list.
Proof.
  induction s1 as [|c s1 IH]; simpl; [reflexivity|now rewrite IH].
Qed.

Lemma list_ascii_repeat (c : ascii) (n : nat) :
  list_ascii_of_string (Py.repeat_char c n) = repeat c n.
Proof.
  induction n as [|n IH]; simpl; [reflexivity|now rewrite IH].
Qed.

Lemma list_ascii_length (s : string) :
  List.length (list_ascii_of_string s) = String.length s.
Proof.
  induction s as [|c s IH]; simpl; [reflexivity|now rewrite IH].
Qed.

Lemma list_ascii_inj (s1 s2 : string) :
  list_ascii_of_string s1 = list_ascii_of_string s2 -> s1 = s2.
Proof.
  intros H. rewrite <- (string_of_list_ascii_of_string s1),
    <- (string_of_list_ascii_of_string s2). now rewrite H.
Qed.

Lemma ljust_list (s : string) (w : nat) (c : ascii) :
  list_ascii_of_string (Py.ljust s w c)
  = (list_ascii_of_string s ++ repeat c (w - String.length s))%list.
Proof.
  unfold Py.ljust. now rewrite list_ascii_app, list_ascii_repeat.
Qed.

Lemma ljust_length (s : string) (w : nat) (c : ascii) :
  List.length (list_ascii_of_string (Py.ljust s w c))
  = Nat.max (String.length s) w.
Proof.
  rewrite ljust_list, length_app, repeat_length, list_ascii_length. lia.
Qed.

(** The numeral of an integer. *)

Lemma to_int_proper (n : Z) :
  Z.to_int n <> Decimal.Pos Decimal.Nil /\
  Z.to_int n <> Decimal.Neg Decimal.Nil.
Proof.
  destruct n as [|p|p]; simpl; split; try discriminate;
    intros [= H]; now apply (DecimalPos.Unsigned.to_uint_nonnil p).
Qed.

Lemma int_str (n : Z) : Py.int (Py.str n) = Ok n.
Proof.
  unfold Py.int, Py.str.
  destruct (to_int_proper n) as [H1 H2].
  rewrite NilZero.isi by assumption.
  now rewrite DecimalZ.of_to.
Qed.

Lemma str_inj (a b : Z) : Py.str a = Py.str b -> a = b.
Proof.
  intros H. pose proof (int_str a) as Ha. rewrite H, int_str in Ha.
  now injection Ha.
Qed.

Lemma uint_string_zeros (k : nat) (d : Decimal.uint) :
  (Py.repeat_char "0" k ++ NilEmpty.string_of_uint d)%string
  = NilEmpty.string_of_uint (Nat.iter k Decimal.D0 d).
Proof.
  induction k as [|k IH]; simpl; [reflexivity|now rewrite IH].
Qed.

Lemma iter_D0_nonnil (k : nat) (d : Decimal.uint) :
  d <> Decimal.Nil -> Nat.iter k Decimal.D0 d <> Decimal.Nil.
Proof. destruct k; simpl; [auto|discriminate]. Qed.

Lemma uint_of_string_minus (s1 s2 : string) :
  NilEmpty.uint_of_string (s1 ++ String "-" s2) = None.
Proof.
  induction s1 as [|c s1 IH]; simpl.
  - now destruct (NilEmpty.uint_of_string s2).
  - now rewrite IH.
Qed.

(** Reading back a zero-padded non-negative numeral gives the number. *)
Lemma int_zfill_nonneg (n : Z) (w : nat) :
  0 <= n -> Py.int (Py.zfill (Py.str n) w) = Ok n.
Proof.
  intros Hn. unfold Py.zfill.
  set (k := (w - String.length (Py.str n))%nat). clearbody k.
  assert (Hd : exists d, d <> Decimal.Nil /\ Z.to_int n = Decimal.Pos d).
  { destruct n as [|p|p]; simpl; [| |lia].
    - exists Decimal.zero. split; [discriminate|reflexivity].
    - exists (Pos.to_uint p). split; [|reflexivity].
      apply DecimalPos.Unsigned.to_uint_nonnil. }
  destruct Hd as (d & Hnil & Hd).
  assert (Hs : Py.str n = NilEmpty.string_of_uint d).
  { unfold Py.str. rewrite Hd. simpl. now destruct d. }
  rewrite Hs, uint_string_zeros.
  pose proof (iter_D0_nonnil k d Hnil) as Hk.
  set (d' := Nat.iter k Decimal.D0 d) in *.
  assert (Hs' : NilEmpty.string_of_uint d'
                = NilZero.string_of_int (Decimal.Pos d'))
    by (simpl; now destruct d').
  unfold Py.int. rewrite Hs', NilZero.isi;
    [|intros [= E]; now apply Hk|discriminate].
  f_equal. rewrite <- DecimalZ.of_int_norm. simpl Decimal.norm.
  unfold d'. rewrite DecimalFacts.unorm_iter_D0.
  change (Decimal.Pos (Decimal.unorm d)) with (Decimal.norm (Decimal.Pos d)).
  rewrite DecimalZ.of_int_norm, <- Hd. apply DecimalZ.of_to.
Qed.

(** Whatever [astype(int)] reads from a formatted field is the field. *)
Lemma int_zfill (n : Z) (w : nat) (v : Z) :
  Py.int (Py.zfill (Py.str n) w) = Ok v -> v = n.
Proof.
  destruct (Z.le_gt_cases 0 n) as [Hn|Hn].
  - rewrite int_zfill_nonneg by assumption. now intros [= <-].
  - unfold Py.zfill.
    destruct (w - String.length (Py.str n))%nat as [|k] eqn:Hk.
    + simpl. rewrite int_str. now intros [= <-].
    + assert (Hs : exists s, Py.str n = String "-" s).
      { destruct n as [|p|p]; try lia. unfold Py.str. simpl. eauto. }
      destruct Hs as (s & ->).
      unfold Py.int. simpl.
      rewrite uint_of_string_minus. simpl. discriminate.
Qed.

(** A non-negative numeral has no underscore. *)
Lemma uint_string_no_underscore (d : Decimal.uint) :
  ~ In "_"%char (list_ascii_of_string (NilEmpty.string_of_uint d)).
Proof.
  induction d; simpl; intros H; try tauto;
    destruct H as [H|H]; try discriminate; auto.
Qed.

Lemma str_no_underscore (n : Z) :
  0 <= n -> ~ In "_"%char (list_ascii_of_string (Py.str n)).
Proof.
  intros Hn. unfold Py.str.
  destruct n as [|p|p]; simpl; [|  |lia].
  - intros [H|[]]. discriminate.
  - pose proof (DecimalPos.Unsigned.to_uint_nonnil p) as Hp.
    replace (NilZero.string_of_uint (Pos.to_uint p))
      with (NilEmpty.string_of_uint (Pos.to_uint p))
      by (now destruct (Pos.to_uint p)).
    apply uint_string_no_underscore.
Qed.

(** Two texts free of the padding character that agree once padded are
    equal. *)
Lemma padded_inj {A} (c : A) (l1 : list A) :
  forall l2 a b,
    ~ In c l1 -> ~ In c l2 ->
    (l1 ++ repeat c a = l2 ++ repeat c b)%list -> l1 = l2.
Proof.
  induction l1 as [|x l1 IH]; intros [|y l2] a b H1 H2 E; simpl in *.
  - reflexivity.
  - destruct a as [|a]; simpl in E; [discriminate|].
    injection E as E1 _. exfalso. apply H2. now left.
  - destruct b as [|b]; simpl in E; [discriminate|].
    injection E as E1 _. exfalso. apply H1. now left.
  - injection E as -> E. f_equal. eapply IH; eauto.
Qed.

End PyFacts.

(** ** Facts about Timestamps and ranges *)

Module PdFacts.

Import Pd.

Lemma of_datetime_seconds (dt : datetime) :
  of_datetime dt = epoch_seconds dt * ns_per_s.
Proof.
  unfold of_datetime, of_fields, epoch_seconds, Datetime.toordinal,
    Datetime.secs_of_day. f_equal. lia.
Qed.

Lemma sub_days (a b : datetime) :
  days (Datetime.sub a b) = (epoch_seconds a - epoch_seconds b) / 86400.
Proof.
  unfold Datetime.sub, epoch_seconds. simpl.
  replace ((Datetime.toordinal a - epoch_ordinal) * 86400
           + Datetime.secs_of_day a
           - ((Datetime.toordinal b - epoch_ordinal) * 86400
              + Datetime.secs_of_day b))
    with ((Datetime.toordinal a - Datetime.toordinal b) * 86400
          + (Datetime.secs_of_day a - Datetime.secs_of_day b)) by lia.
  rewrite Z.div_add_l by lia. reflexivity.
Qed.

Lemma sub_seconds (a b : datetime) :
  seconds (Datetime.sub a b) = (epoch_seconds a - epoch_seconds b) mod 86400.
Proof.
  unfold Datetime.sub, epoch_seconds. simpl.
  replace ((Datetime.toordinal a - epoch_ordinal) * 86400
           + Datetime.secs_of_day a
           - ((Datetime.toordinal b - epoch_ordinal) * 86400
              + Datetime.secs_of_day b))
    with ((Datetime.secs_of_day a - Datetime.secs_of_day b)
          + (Datetime.toordinal a - Datetime.toordinal b) * 86400) by lia.
  rewrite Z.mod_add by lia. reflexivity.
Qed.

Lemma hms_decomp (s : Z) :
  0 <= s < 86400 ->
  0 <= s / 3600 <= 23 /\ 0 <= s mod 3600 / 60 <= 59 /\ 0 <= s mod 60 <= 59
  /\ s / 3600 * 3600 + s mod 3600 / 60 * 60 + s mod 60 = s.
Proof.
  intros Hs.
  pose proof (Z.div_mod s 3600 ltac:(lia)).
  pose proof (Z.mod_pos_bound s 3600 ltac:(lia)).
  pose proof (Z.div_mod (s mod 3600) 60 ltac:(lia)).
  pose proof (Z.mod_pos_bound (s mod 3600) 60 ltac:(lia)).
  pose proof (Z.div_mod s 60 ltac:(lia)).
  pose proof (Z.mod_pos_bound s 60 ltac:(lia)).
  generalize dependent (s mod 3600 / 60).
  generalize dependent ((s mod 3600) mod 60).
  generalize dependent (s mod 3600).
  generalize dependent (s / 3600).
  generalize dependent (s mod 60).
  generalize dependent (s / 60).
  intros. lia.
Qed.

(** The fields of a whole-second Timestamp rebuild it. *)
Lemma fields_roundtrip (t : Timestamp) :
  t mod ns_per_s = 0 ->
  Timestamp_of_fields (f_year t) (f_month t) (f_day t)
                      (f_hour t) (f_minute t) (f_second t) = Ok t.
Proof.
  intros Hw. unfold Timestamp_of_fields, f_year, f_month, f_day, ymd.
  pose proof (ord2ymd_spec ((t / ns_per_s) / 86400 + epoch_ordinal)) as Ho.
  destruct (_ord2ymd (t / ns_per_s / 86400 + epoch_ordinal))
    as [[y m] d]. simpl fst; simpl snd.
  destruct Ho as (Hord & Hm & Hd).
  assert (Hs : 0 <= sod t < 86400)
    by (unfold sod; apply Z.mod_pos_bound; lia).
  assert (Ht : t = (t / ns_per_s) * ns_per_s).
  { rewrite (Z.div_mod t ns_per_s) at 1 by (unfold ns_per_s; lia).
    rewrite Hw. lia. }
  assert (Hq : t / ns_per_s = 86400 * (t / ns_per_s / 86400) + sod t)
    by (unfold sod; apply Z.div_mod; lia).
  assert (Hh : 0 <= f_hour t <= 23 /\ 0 <= f_minute t <= 59
               /\ 0 <= f_second t <= 59
               /\ f_hour t * 3600 + f_minute t * 60 + f_second t = sod t).
  { unfold f_hour, f_minute, f_second. now apply hms_decomp. }
  destruct Hh as (Hh & Hmi & Hsec & Hsum).
  replace ((1 <=? m) && (m <=? 12) && (1 <=? d)
           && (d <=? _days_in_month y m)
           && (0 <=? f_hour t) && (f_hour t <=? 23)
           && (0 <=? f_minute t) && (f_minute t <=? 59)
           && (0 <=? f_second t) && (f_second t <=? 59)) with true.
  2:{ symmetry. repeat (apply andb_true_intro; split);
      try apply Z.leb_le; lia. }
  f_equal. unfold of_fields. rewrite Hord.
  transitivity (t / ns_per_s * ns_per_s); [|symmetry; exact Ht].
  f_equal. lia.
Qed.

Lemma np_arange_step (b q stride h : Z) :
  0 < stride -> 1 <= h <= stride ->
  np_arange b (b + q * stride + h) stride
  = map (fun i => b + Z.of_nat i * stride) (seq 0 (Z.to_nat (q + 1))).
Proof.
  intros Hs Hh. unfold np_arange. do 2 f_equal.
  assert (E : (b - (b + q * stride + h)) / stride = - (q + 1)).
  { symmetry. apply (Z.div_unique _ stride _ (stride - h)); lia. }
  rewrite E. lia.
Qed.

(** A positive stride: the instants [b, b + stride, ...] up to [iend]. *)
Lemma generate_regular_range_pos (b iend stride : Z) :
  0 < stride ->
  generate_regular_range b iend stride
  = Ok (map (fun i => b + Z.of_nat i * stride)
            (seq 0 (Z.to_nat ((iend - b) / stride + 1)))).
Proof.
  intros Hs. unfold generate_regular_range.
  destruct (Z.eqb_spec stride 0) as [H0|_]; [lia|].
  f_equal.
  replace (b + (iend - b) / stride * stride + stride / 2 + 1)
    with (b + (iend - b) / stride * stride + (stride / 2 + 1)) by lia.
  apply np_arange_step; [assumption|].
  Z.div_mod_to_equations. lia.
Qed.

(** A negative stride going forward in time: no instant at all. *)
Lemma generate_regular_range_neg (b iend stride : Z) :
  stride < 0 -> b < iend ->
  generate_regular_range b iend stride = Ok [].
Proof.
  intros Hs Hlt. unfold generate_regular_range.
  destruct (Z.eqb_spec stride 0) as [H0|_]; [lia|].
  f_equal. unfold np_arange.
  set (e := b + (iend - b) / stride * stride + stride / 2 + 1).
  assert (He : b < e).
  { unfold e.
    pose proof (Z.div_mod (iend - b) stride ltac:(lia)) as Hdm.
    pose proof (Z.mod_neg_bound (iend - b) stride Hs) as Hr.
    pose proof (Z.div_mod stride 2 ltac:(lia)) as Hdm2.
    pose proof (Z.mod_pos_bound stride 2 ltac:(lia)) as Hr2.
    set (q := (iend - b) / stride) in *.
    assert (Hq1 : q <= -1) by nia.
    assert (Hqs : - stride <= q * stride) by nia.
    lia. }
  assert (Hq : 0 <= (b - e) / stride).
  { replace ((b - e) / stride) with ((e - b) / (- stride)).
    - apply Z.div_pos; lia.
    - rewrite <- (Z.div_opp_opp (b - e)) by lia. f_equal. lia. }
  replace (Z.to_nat (- ((b - e) / stride))) with 0%nat by lia.
  reflexivity.
Qed.

Lemma firstn_seq (k : nat) : forall a n,
  firstn k (seq a n) = seq a (Nat.min k n).
Proof.
  induction k as [|k IH]; intros a [|n]; simpl; try reflexivity.
  now rewrite IH.
Qed.

Lemma getlast_map_seq {A} (f : nat -> A) (n : nat) :
  (0 < n)%nat -> Py.getlast (map f (seq 0 n)) = Ok (f (n - 1)%nat).
Proof.
  intros Hn. unfold Py.getlast.
  destruct (map f (seq 0 n)) eqn:E.
  - destruct n; [lia|discriminate].
  - rewrite <- E. unfold Py.getitem.
    rewrite length_map, length_seq.
    rewrite nth_error_map, nth_error_seq.
    destruct (Nat.ltb_spec (n - 1) n); [reflexivity|lia].
Qed.

Lemma getlast_app_last {A} (xs : list A) (v : A) :
  Py.getlast (xs ++ [v]) = Ok v.
Proof.
  unfold Py.getlast.
  destruct (xs ++ [v])%list eqn:E; [now destruct xs|].
  rewrite <- E. unfold Py.getitem.
  rewrite length_app. simpl List.length.
  rewrite nth_error_app2 by lia.
  replace (List.length xs + 1 - 1 - List.length xs)%nat with 0%nat by lia.
  reflexivity.
Qed.

Lemma setlast_map_seq {A} (f : nat -> A) (n : nat) (v : A) :
  (0 < n)%nat ->
  Py.setlast (map f (seq 0 n)) v = Ok (map f (seq 0 (n - 1)) ++ [v]).
Proof.
  intros Hn. unfold Py.setlast.
  destruct (map f (seq 0 n)) eqn:E.
  - destruct n; [lia|discriminate].
  - rewrite <- E. rewrite length_map, length_seq.
    rewrite firstn_map, firstn_seq.
    replace (Nat.min (n - 1) n) with (n - 1)%nat by lia. reflexivity.
Qed.

Lemma map_seq_last {A} (f : nat -> A) (n : nat) :
  (0 < n)%nat ->
  map f (seq 0 n) = (map f (seq 0 (n - 1)) ++ [f (n - 1)%nat])%list.
Proof.
  intros Hn. replace n with (n - 1 + 1)%nat at 1 by lia.
  rewrite seq_app, map_app. reflexivity.
Qed.

End PdFacts.

(** ** The shape of the day segmentation *)

Module SegmentFacts.

Import Pd PdFacts.

Ltac unfold_units :=
  unfold DAY, SEC, timedelta_days, timedelta_seconds, ns_per_s in *.

Lemma day_count_cases (start endd : datetime) :
  let D := epoch_seconds endd - epoch_seconds start in
  0 <= D mod 86400 < 86400 /\
  D = 86400 * (D / 86400) + D mod 86400 /\
  seconds (Datetime.sub endd start) = D mod 86400 /\
  day_count start endd
  = if D mod 86400 =? 0 then D / 86400 else D / 86400 + 1.
Proof.
  intros D. unfold day_count. rewrite sub_days, sub_seconds. fold D.
  repeat split.
  - apply Z.mod_pos_bound; lia.
  - apply Z.mod_pos_bound; lia.
  - apply Z.div_mod; lia.
  - now destruct (D mod 86400 =? 0).
Qed.

Lemma slice_to_starts (b k dcount : Z) :
  k <= dcount <= k + 1 ->
  Py.slice_to (map (fun i => b + Z.of_nat i * DAY)
                   (seq 0 (Z.to_nat (k + 1)))) dcount
  = segment_starts b (Z.to_nat dcount).
Proof.
  intros Hle. unfold Py.slice_to, segment_starts.
  destruct (Z.leb_spec 0 dcount) as [Hd|Hd].
  - rewrite firstn_map, firstn_seq. do 2 f_equal. lia.
  - replace (Z.to_nat (k + 1)) with 0%nat by lia.
    replace (Z.to_nat dcount) with 0%nat by lia.
    simpl. now destruct (0 - Z.to_nat (- dcount))%nat.
Qed.

(** The segmentation, in closed form. *)
Lemma day_segments_eq (datestart dateend : string) (start endd : datetime) :
  Datetime.strptime datestart = Ok start ->
  Datetime.strptime dateend = Ok endd ->
  day_segments datestart dateend
  = let n := Z.to_nat (day_count start endd) in
    match n with
    | O => Raise IndexError
    | S _ => Ok (segment_starts (of_datetime start) n,
                 segment_ends (of_datetime start) (last_end start endd) n)
    end.
Proof.
  intros Hs He. unfold day_segments, to_Timestamp.
  rewrite Hs, He. cbn [bind].
  unfold date_range_1D. fold DAY.
  rewrite generate_regular_range_pos by (unfold_units; lia). cbn [bind].
  destruct (day_count_cases start endd) as (Hr & Hdm & Hsec & Hdc).
  rewrite !of_datetime_seconds in *.
  unfold last_end. rewrite Hsec, of_datetime_seconds.
  set (B := epoch_seconds start) in *. set (E := epoch_seconds endd) in *.
  set (k := (E - B) / 86400) in *. set (r := (E - B) mod 86400) in *.
  assert (Hk : (E * ns_per_s - B * ns_per_s) / DAY = k).
  { unfold k, DAY, timedelta_days.
    replace (E * ns_per_s - B * ns_per_s) with ((E - B) * ns_per_s) by lia.
    replace (1 * 86400 * ns_per_s) with (86400 * ns_per_s) by lia.
    apply Z.div_mul_cancel_r; unfold ns_per_s; lia. }
  rewrite Hk.
  rewrite slice_to_starts
    by (rewrite Hdc; destruct (Z.eqb_spec r 0); lia).
  set (dcount := day_count start endd) in *.
  destruct (Z.to_nat dcount) as [|n'] eqn:Hn; [reflexivity|].
  set (n := S n') in *.
  assert (Hn1 : (0 < n)%nat) by (unfold n; lia).
  assert (Hzn : Z.of_nat n = dcount) by lia.
  fold DAY. fold SEC.
  assert (Hends : map (fun s => s + DAY - SEC)
                      (segment_starts (B * ns_per_s) n)
                  = map (fun i => B * ns_per_s + Z.of_nat i * DAY + DAY - SEC)
                        (seq 0 n))
    by (unfold segment_starts; now rewrite map_map).
  rewrite Hends.
  rewrite getlast_map_seq by assumption. cbn [bind].
  assert (Hlast : Z.of_nat (n - 1) = dcount - 1) by lia.
  rewrite Hlast.
  unfold segment_ends.
  destruct (Z.eqb_spec r 0) as [Hr0|Hr0].
  - destruct (Z.ltb_spec (E * ns_per_s)
                (B * ns_per_s + (dcount - 1) * DAY + DAY - SEC))
      as [Hlt|Hge].
    + exfalso. unfold_units. lia.
    + cbn [bind]. rewrite (map_seq_last _ n) by assumption.
      rewrite Hlast.
      replace (B * ns_per_s + (dcount - 1) * DAY + DAY - SEC)
        with (E * ns_per_s - SEC) by (unfold_units; lia).
      reflexivity.
  - destruct (Z.ltb_spec (E * ns_per_s)
                (B * ns_per_s + (dcount - 1) * DAY + DAY - SEC))
      as [Hlt|Hge].
    + rewrite setlast_map_seq by assumption. reflexivity.
    + cbn [bind]. rewrite (map_seq_last _ n) by assumption.
      rewrite Hlast.
      replace (B * ns_per_s + (dcount - 1) * DAY + DAY - SEC)
        with (E * ns_per_s) by (unfold_units; lia).
      reflexivity.
Qed.

(** A segmentation that succeeds comes from a parsed window that ends
    after it starts. *)
Lemma day_segments_inv (datestart dateend : string)
    (starts2Use ends2Use : Series) :
  day_segments datestart dateend = Ok (starts2Use, ends2Use) ->
  exists start endd n,
    Datetime.strptime datestart = Ok start /\
    Datetime.strptime dateend = Ok endd /\
    Z.of_nat n = day_count start endd /\ (0 < n)%nat /\
    starts2Use = segment_starts (of_datetime start) n /\
    ends2Use = segment_ends (of_datetime start) (last_end start endd) n.
Proof.
  intros H.
  destruct (Datetime.strptime datestart) as [start|] eqn:Hs;
    [|unfold day_segments in H; rewrite Hs in H; discriminate].
  destruct (Datetime.strptime dateend) as [endd|] eqn:He;
    [|unfold day_segments in H; rewrite Hs, He in H; discriminate].
  rewrite (day_segments_eq _ _ _ _ Hs He) in H. cbv zeta in H.
  destruct (Z.to_nat (day_count start endd)) as [|n'] eqn:Hn;
    [discriminate|].
  injection H as <- <-.
  exists start, endd, (S n'). repeat split; auto; lia.
Qed.

Lemma segment_starts_length (b : Timestamp) (n : nat) :
  List.length (segment_starts b n) = n.
Proof. unfold segment_starts. now rewrite length_map, length_seq. Qed.

Lemma segment_ends_length (b l : Timestamp) (n : nat) :
  (0 < n)%nat -> List.length (segment_ends b l n) = n.
Proof.
  intros Hn. unfold segment_ends.
  rewrite length_app, length_map, length_seq. simpl. lia.
Qed.

Lemma segment_starts_nth (b : Timestamp) (n i : nat) (s : Timestamp) :
  nth_error (segment_starts b n) i = Some s ->
  (i < n)%nat /\ s = b + Z.of_nat i * DAY.
Proof.
  unfold segment_starts. rewrite nth_error_map, nth_error_seq.
  destruct (Nat.ltb_spec i n); simpl; [|discriminate].
  intros [= <-]. auto.
Qed.

Lemma segment_ends_nth (b l : Timestamp) (n i : nat) (e : Timestamp) :
  (0 < n)%nat ->
  nth_error (segment_ends b l n) i = Some e ->
  ((i < n - 1)%nat /\ e = b + Z.of_nat i * DAY + DAY - SEC)
  \/ ((i = n - 1)%nat /\ e = l).
Proof.
  intros Hn. unfold segment_ends.
  destruct (Nat.ltb_spec i (n - 1)) as [Hi|Hi].
  - rewrite nth_error_app1 by (now rewrite length_map, length_seq).
    rewrite nth_error_map, nth_error_seq.
    destruct (Nat.ltb_spec i (n - 1)); simpl; [|lia].
    intros [= <-]. left. auto.
  - rewrite nth_error_app2 by (now rewrite length_map, length_seq).
    rewrite length_map, length_seq.
    destruct (i - (n - 1))%nat as [|j] eqn:Hj; simpl.
    + intros [= <-]. right. split; [lia|reflexivity].
    + destruct j; discriminate.
Qed.

End SegmentFacts.

(** ** What the loop builds *)

Module GeneratorFacts.

Import Pd PdFacts PyFacts SegmentFacts.

Lemma column_spec (f : field) (dts : Series) (c : list Z) :
  column f dts = Ok c -> c = map (field_value f) dts.
Proof.
  unfold column. apply mapM_map.
  intros t v _ H. unfold strftime in H. now apply int_zfill in H.
Qed.

Lemma to_numpy_map {A} (f1 f2 f3 f4 f5 f6 : A -> Z) (l : list A) :
  to_numpy (map f1 l) (map f2 l) (map f3 l) (map f4 l) (map f5 l) (map f6 l)
  = map (fun x => [f1 x; f2 x; f3 x; f4 x; f5 x; f6 x]) l.
Proof.
  induction l as [|x l IH]; simpl; [reflexivity|now rewrite IH].
Qed.

Lemma set_row_inv (row row' : list ascii) :
  set_row row = Ok row' ->
  row' = row /\ List.length row = 200%nat /\ forallb is_ascii row = true.
Proof.
  unfold set_row.
  destruct (Nat.eqb_spec (List.length row) 200); simpl; [|discriminate].
  destruct (forallb is_ascii row); [|discriminate].
  intros [= <-]. auto.
Qed.

Lemma fill_ids_inv (prefix : string) (n : nat) (ids : list (list ascii)) :
  fill_ids prefix (arange_str n) = Ok ids ->
  ids = map (id_row prefix) (seq 0 n) /\
  Forall (fun row => List.length row = 200%nat) ids.
Proof.
  unfold fill_ids. intros H. split.
  - unfold arange_str in H.
    apply (mapM_map _ (fun stri =>
             list_ascii_of_string (Py.ljust (prefix ++ stri) 200 "_")))
      in H.
    + rewrite H, map_map. reflexivity.
    + intros x y _ Hx. apply set_row_inv in Hx. tauto.
  - apply mapM_Forall2 in H.
    induction H as [|x y l ys Hxy _ IH]; constructor; auto.
    apply set_row_inv in Hxy. destruct Hxy as (-> & Hlen & _). exact Hlen.
Qed.

Lemma id_row_inj (prefix : string) (i j : nat) :
  id_row prefix i = id_row prefix j -> i = j.
Proof.
  unfold id_row. rewrite !ljust_list, !list_ascii_app, <- !List.app_assoc.
  intros H. apply app_inv_head in H.
  apply padded_inj in H; try (apply str_no_underscore; lia).
  apply list_ascii_inj, str_inj in H. lia.
Qed.

Lemma NoDup_map_inj {A B} (f : A -> B) (l : list A) :
  (forall x y, f x = f y -> x = y) -> NoDup l -> NoDup (map f l).
Proof.
  intros Hinj H. induction H as [|x l Hx _ IH]; simpl; constructor; auto.
  rewrite in_map_iff. intros (y & Hy & Hin). apply Hinj in Hy. now subst.
Qed.

Lemma id_rows_NoDup (prefix : string) (n : nat) :
  NoDup (map (id_row prefix) (seq 0 n)).
Proof.
  apply NoDup_map_inj; [apply id_row_inj|apply seq_NoDup].
Qed.

Section Loop.

Context {pynum float32 : Type} (np_float32 : pynum -> float32).

Lemma build_dataset_inv (sitename : string) (lat lon alt : pynum)
    (datestart dateend : string) (sample_stragety : Z) (dts : Series)
    (ds : Dataset float32) :
  build_dataset np_float32 sitename lat lon alt datestart dateend
                sample_stragety dts = Ok ds ->
  latitude ds = np_full (List.length dts) (np_float32 lat) /\
  longitude ds = np_full (List.length dts) (np_float32 lon) /\
  altitude ds = np_full (List.length dts) (np_float32 lon) /\
  CT_sampling_strategy ds = np_full (List.length dts) sample_stragety /\
  time_components ds = map time_row dts /\
  obspack_id ds
  = map (id_row (id_prefix sitename datestart dateend))
        (seq 0 (List.length dts)) /\
  Forall (fun row => List.length row = 200%nat) (obspack_id ds).
Proof.
  unfold build_dataset. intros H.
  destruct (column fY dts) as [cy|] eqn:Hy; [|discriminate].
  destruct (column fm dts) as [cm|] eqn:Hm; [|discriminate].
  destruct (column fd dts) as [cd|] eqn:Hd; [|discriminate].
  destruct (column fH dts) as [ch|] eqn:Hh; [|discriminate].
  destruct (column fM dts) as [ci|] eqn:Hi; [|discriminate].
  destruct (column fS dts) as [cs|] eqn:Hsec; [|discriminate].
  cbn [bind] in H.
  destruct (fill_ids (id_prefix sitename datestart dateend)
                     (arange_str (List.length dts))) as [ids|] eqn:Hids;
    [|discriminate].
  cbn [bind] in H. injection H as <-. cbn.
  apply column_spec in Hy, Hm, Hd, Hh, Hi, Hsec. subst.
  apply fill_ids_inv in Hids. destruct Hids as [Hids Hlen].
  repeat split; auto.
  apply (to_numpy_map (field_value fY) (field_value fm) (field_value fd)
                      (field_value fH) (field_value fM) (field_value fS)).
Qed.

Lemma loop_body_inv (sitename : string) (lat lon alt : pynum)
    (datestart dateend : string) (samplefreq sample_stragety : Z)
    (outpath : string) (starts2Use ends2Use : Series) (t : nat)
    (f : File float32) :
  loop_body np_float32 sitename lat lon alt datestart dateend samplefreq
            sample_stragety outpath starts2Use ends2Use t = Ok f ->
  exists s e dts,
    nth_error starts2Use t = Some s /\
    nth_error ends2Use t = Some e /\
    date_range_s s e samplefreq = Ok dts /\
    build_dataset np_float32 sitename lat lon alt datestart dateend
                  sample_stragety dts = Ok (snd f) /\
    fst f = (outpath ++ file_name sitename samplefreq s)%string.
Proof.
  unfold loop_body, Py.getitem. intros H.
  destruct (nth_error starts2Use t) as [s|]; [|discriminate].
  destruct (nth_error ends2Use t) as [e|]; [|discriminate].
  cbn [bind] in H.
  destruct (date_range_s s e samplefreq) as [dts|] eqn:Hdts; [|discriminate].
  cbn [bind] in H.
  destruct (build_dataset np_float32 sitename lat lon alt datestart dateend
                          sample_stragety dts) as [ds|] eqn:Hds;
    [|discriminate].
  cbn [bind] in H. injection H as <-.
  exists s, e, dts. auto.
Qed.

(** What [for_range] leaves on disk was built by the body, in order. *)
Lemma for_range_written (body : nat -> result (File float32))
    (ts : list nat) :
  forall written all_files f,
    In f (fst (for_range body ts written all_files)) ->
    In f written \/ exists t, In t ts /\ body t = Ok f.
Proof.
  induction ts as [|t ts IH]; simpl; intros written all_files f H.
  - now left.
  - destruct (body t) as [g|e] eqn:Hb; simpl in H; [|now left].
    apply IH in H. destruct H as [H|(t' & Ht' & Hb')].
    + apply in_app_or in H. destruct H as [H|[<-|[]]]; [now left|].
      right. exists t. auto.
    + right. exists t'. auto.
Qed.

(** When the body succeeds at every index, the loop runs to its end. *)
Lemma for_range_all_ok (body : nat -> result (File float32))
    (g : nat -> File float32) (ts : list nat) :
  (forall t, In t ts -> body t = Ok (g t)) ->
  forall written all_files,
    for_range body ts written all_files
    = ((written ++ map g ts)%list,
       Ok (all_files ++ map (fun t => fst (g t)) ts)%list).
Proof.
  induction ts as [|t ts IH]; simpl; intros Hb written all_files.
  - now rewrite !List.app_nil_r.
  - rewrite Hb by auto. rewrite IH by auto.
    now rewrite <- !List.app_assoc.
Qed.

(** Every file on disk was built from one segment of the window. *)
Lemma written_inv (sitename : string) (lat lon alt : pynum)
    (datestart dateend : string) (samplefreq sample_stragety : Z)
    (outpath : string) (f : File float32) :
  In f (fst (make_ObsPack_Input_netcdfs np_float32 sitename lat lon alt
               datestart dateend samplefreq sample_stragety outpath)) ->
  exists starts2Use ends2Use t,
    day_segments datestart dateend = Ok (starts2Use, ends2Use) /\
    loop_body np_float32 sitename lat lon alt datestart dateend samplefreq
              sample_stragety outpath starts2Use ends2Use t = Ok f.
Proof.
  unfold make_ObsPack_Input_netcdfs.
  destruct (day_segments datestart dateend) as [[starts2Use ends2Use]|];
    simpl; [|tauto].
  intros H. apply for_range_written in H.
  destruct H as [[]|(t & _ & Hb)]. eauto.
Qed.

End Loop.

End GeneratorFacts.

(** ** Segments and the files built from them *)

Module WindowFacts.

Import Pd PdFacts PyFacts SegmentFacts GeneratorFacts.

(** Every segment starts on a whole second and ends after it starts. *)
Lemma segment_span (datestart dateend : string) (starts2Use ends2Use : Series)
    (t : nat) (s e : Timestamp) :
  day_segments datestart dateend = Ok (starts2Use, ends2Use) ->
  nth_error starts2Use t = Some s ->
  nth_error ends2Use t = Some e ->
  s < e /\ s mod ns_per_s = 0.
Proof.
  intros Hseg Hs He.
  destruct (day_segments_inv _ _ _ _ Hseg)
    as (start & endd & n & _ & _ & Hn & Hpos & -> & ->).
  apply segment_starts_nth in Hs. destruct Hs as [Ht ->].
  split.
  - apply segment_ends_nth in He; [|assumption].
    destruct He as [[_ ->]|[Hlast ->]].
    + unfold_units. lia.
    + destruct (day_count_cases start endd) as (Hr & Hdm & Hsec & Hdc).
      unfold last_end. rewrite Hsec, !of_datetime_seconds.
      rewrite Hdc in Hn.
      assert (Ht' : Z.of_nat t = Z.of_nat n - 1) by lia.
      rewrite Ht'.
      destruct (Z.eqb_spec
                  ((epoch_seconds endd - epoch_seconds start) mod 86400) 0)
        as [Hr0|Hr0]; unfold_units; lia.
  - rewrite of_datetime_seconds.
    replace (epoch_seconds start * ns_per_s + Z.of_nat t * DAY)
      with ((epoch_seconds start + Z.of_nat t * 86400) * ns_per_s)
      by (unfold_units; lia).
    apply Z.mod_mul. unfold ns_per_s. lia.
Qed.

Lemma segment_lookup (datestart dateend : string)
    (starts2Use ends2Use : Series) (t : nat) :
  day_segments datestart dateend = Ok (starts2Use, ends2Use) ->
  (t < List.length starts2Use)%nat ->
  exists s e, nth_error starts2Use t = Some s /\
              nth_error ends2Use t = Some e.
Proof.
  intros Hseg Ht.
  destruct (day_segments_inv _ _ _ _ Hseg)
    as (start & endd & n & _ & _ & _ & Hpos & -> & ->).
  rewrite segment_starts_length in Ht.
  destruct (nth_error (segment_starts (of_datetime start) n) t) as [s|] eqn:Hs.
  - destruct (nth_error (segment_ends (of_datetime start)
                           (last_end start endd) n) t) as [e|] eqn:He.
    + eauto.
    + apply nth_error_None in He.
      rewrite segment_ends_length in He by assumption. lia.
  - apply nth_error_None in Hs. rewrite segment_starts_length in Hs. lia.
Qed.

Lemma segments_nonempty (datestart dateend : string)
    (starts2Use ends2Use : Series) :
  day_segments datestart dateend = Ok (starts2Use, ends2Use) ->
  (0 < List.length starts2Use)%nat /\
  List.length ends2Use = List.length starts2Use.
Proof.
  intros Hseg.
  destruct (day_segments_inv _ _ _ _ Hseg)
    as (start & endd & n & _ & _ & _ & Hpos & -> & ->).
  rewrite segment_starts_length, segment_ends_length by assumption. auto.
Qed.

(** The instants of a range are a whole number of strides from its
    start. *)
Lemma range_elements (b iend stride : Z) (l : Series) :
  generate_regular_range b iend stride = Ok l ->
  forall x, In x l -> exists i : nat, x = b + Z.of_nat i * stride.
Proof.
  unfold generate_regular_range.
  destruct (stride =? 0); [discriminate|].
  intros [= <-] x Hx. unfold np_arange in Hx.
  apply in_map_iff in Hx. destruct Hx as (i & <- & _). eauto.
Qed.

Lemma range_whole_seconds (s e n : Z) (dts : Series) :
  date_range_s s e n = Ok dts -> s mod ns_per_s = 0 ->
  forall x, In x dts -> x mod ns_per_s = 0.
Proof.
  unfold date_range_s, timedelta_seconds. intros H Hs x Hx.
  destruct (range_elements _ _ _ _ H x Hx) as (i & ->).
  replace (s + Z.of_nat i * (n * ns_per_s))
    with (s + (Z.of_nat i * n) * ns_per_s) by lia.
  rewrite Z.mod_add by (unfold ns_per_s; lia). exact Hs.
Qed.

(** The number of instants of a range with a positive frequency. *)
Lemma date_range_s_count (s e n : Z) :
  0 < n -> s <= e ->
  exists dts, date_range_s s e n = Ok dts /\
              Z.of_nat (List.length dts) = (e - s) / ns_per_s / n + 1.
Proof.
  intros Hn Hse. unfold date_range_s, timedelta_seconds.
  rewrite generate_regular_range_pos by (unfold ns_per_s; lia).
  eexists. split; [reflexivity|].
  rewrite length_map, length_seq.
  rewrite Z.div_div by (unfold ns_per_s; lia).
  rewrite (Z.mul_comm ns_per_s n).
  assert (0 <= (e - s) / (n * ns_per_s))
    by (apply Z.div_pos; unfold ns_per_s; lia).
  lia.
Qed.

Section Files.

Context {pynum float32 : Type} (np_float32 : pynum -> float32).

(** Every file on disk holds the dataset of the instants sampled in one
    segment of the window. *)
Lemma written_segment (sitename : string) (lat lon alt : pynum)
    (datestart dateend : string) (samplefreq sample_stragety : Z)
    (outpath : string) (f : File float32) :
  In f (fst (make_ObsPack_Input_netcdfs np_float32 sitename lat lon alt
               datestart dateend samplefreq sample_stragety outpath)) ->
  exists starts2Use ends2Use t s e dts,
    day_segments datestart dateend = Ok (starts2Use, ends2Use) /\
    nth_error starts2Use t = Some s /\
    nth_error ends2Use t = Some e /\
    date_range_s s e samplefreq = Ok dts /\
    build_dataset np_float32 sitename lat lon alt datestart dateend
                  sample_stragety dts = Ok (snd f) /\
    fst f = (outpath ++ file_name sitename samplefreq s)%string.
Proof.
  intros H. apply written_inv in H.
  destruct H as (starts2Use & ends2Use & t & Hseg & Hbody).
  apply loop_body_inv in Hbody.
  destruct Hbody as (s & e & dts & Hs & He & Hdts & Hds & Hname).
  exists starts2Use, ends2Use, t, s, e, dts. auto 10.
Qed.

End Files.

End WindowFacts.

(** ** The claims *)

Import Pd PdFacts PyFacts SegmentFacts GeneratorFacts WindowFacts.

(** C1, as stated (refuted): the docstring's site over the window from
    "20130601 00:00:00" to "20130602 00:00:00" at 3600 s does not leave two
    files on disk, whatever the two files. *)
Lemma C1_two_files_refuted :
  ~ (exists f1 f2,
       fst (Example.soas "20130602 00:00:00" 3600 "") = [f1; f2]).
Proof.
  intros (f1 & f2 & H).
  apply (f_equal (@List.length _)) in H.
  vm_compute in H. discriminate.
Qed.

(** C1, amended: that call writes and returns exactly one file, named
    obspack_SOAS-Ground_freq3600s.2013-06-01.nc under the output path; it
    holds the 24 hourly records of 2013-06-01 from 00:00:00 to 23:00:00.
    The window's end, midnight of the second day, is not sampled. *)
Theorem C1_one_daily_file (outpath : string) :
  let name := (outpath ++ "obspack_SOAS-Ground_freq3600s.2013-06-01.nc")%string in
  let call := Example.soas "20130602 00:00:00" 3600 outpath in
  map fst (fst call) = [name] /\
  snd call = Ok [name] /\
  map (fun f => time_components (snd f)) (fst call)
  = [map (fun h => [2013; 6; 1; h; 0; 0]) (zrange 0 24)].
Proof.
  cbv zeta. repeat split; vm_compute; reflexivity.
Qed.

(** C2, as stated (refuted): for the window that starts and ends at
    "20130601 00:00:00" the segmentation does not yield one segment, and
    no single file is left on disk. *)
Lemma C2_single_instant_refuted :
  ~ ((exists s e,
        day_segments "20130601 00:00:00" "20130601 00:00:00" = Ok ([s], [e]))
     \/ (exists f, fst (Example.soas "20130601 00:00:00" 3600 "") = [f])).
Proof.
  intros [(s & e & H)|(f & H)].
  - vm_compute in H. discriminate.
  - apply (f_equal (@List.length _)) in H. vm_compute in H. discriminate.
Qed.

(** C2, amended: for every window whose end equals its start, the day
    count is 0, so no day segment is selected and no file is written. *)
Theorem C2_empty_window_no_file {pynum float32 : Type}
    (np_float32 : pynum -> float32) (sitename : string) (lat lon alt : pynum)
    (datestart : string) (samplefreq sample_stragety : Z) (outpath : string)
    (start : datetime) :
  Datetime.strptime datestart = Ok start ->
  day_count start start = 0 /\
  (forall starts : Series,
     Py.slice_to starts (day_count start start) = []) /\
  fst (make_ObsPack_Input_netcdfs np_float32 sitename lat lon alt
         datestart datestart samplefreq sample_stragety outpath) = [].
Proof.
  intros Hs.
  assert (Hc : day_count start start = 0).
  { destruct (day_count_cases start start) as (_ & _ & _ & ->).
    rewrite Z.sub_diag. reflexivity. }
  split; [exact Hc|]. split; [intros starts; now rewrite Hc|].
  unfold make_ObsPack_Input_netcdfs.
  rewrite (day_segments_eq _ _ _ _ Hs Hs). cbv zeta. rewrite Hc.
  reflexivity.
Qed.

(** The window that starts and ends at 2013-06-01 00:00:00. *)
Lemma C2_empty_window_no_file_witness :
  day_count (mk_datetime 2013 6 1 0 0 0) (mk_datetime 2013 6 1 0 0 0) = 0 /\
  fst (Example.soas "20130601 00:00:00" 3600 "out/") = [].
Proof.
  destruct (C2_empty_window_no_file Example.np_float32 "SOAS-Ground"
              Example.lat Example.lon Example.alt "20130601 00:00:00"
              3600 2 "out/" (mk_datetime 2013 6 1 0 0 0) eq_refl)
    as (H1 & _ & H3).
  split; [exact H1|exact H3].
Defined.

(** A short call used to exercise the general statements: the docstring's
    site for one hour, sampled every 30 minutes. *)
Lemma short_call_files :
  exists f, fst (Example.soas "20130601 01:00:00" 1800 "out/") = [f].
Proof.
  destruct (fst (Example.soas "20130601 01:00:00" 1800 "out/"))
    as [|f [|g l]] eqn:E.
  - apply (f_equal (@List.length _)) in E. vm_compute in E. discriminate.
  - now exists f.
  - apply (f_equal (@List.length _)) in E. vm_compute in E. discriminate.
Defined.

(** C3: in every file written, the altitude variable holds, for every
    record, the longitude argument converted to float32; it equals the
    longitude variable, has one entry per record, and the altitude
    argument has no influence on what the generator does. *)
Theorem C3_altitude_holds_longitude {pynum float32 : Type}
    (np_float32 : pynum -> float32) (sitename : string) (lat lon alt : pynum)
    (datestart dateend : string) (samplefreq sample_stragety : Z)
    (outpath : string) (f : File float32) :
  In f (fst (make_ObsPack_Input_netcdfs np_float32 sitename lat lon alt
               datestart dateend samplefreq sample_stragety outpath)) ->
  Forall (fun v => v = np_float32 lon) (altitude (snd f)) /\
  altitude (snd f) = longitude (snd f) /\
  List.length (altitude (snd f)) = List.length (time_components (snd f)) /\
  forall alt',
    make_ObsPack_Input_netcdfs np_float32 sitename lat lon alt'
      datestart dateend samplefreq sample_stragety outpath
    = make_ObsPack_Input_netcdfs np_float32 sitename lat lon alt
        datestart dateend samplefreq sample_stragety outpath.
Proof.
  intros Hin. apply written_segment in Hin.
  destruct Hin as (starts & ends & t & s & e & dts & _ & _ & _ & _ & Hds & _).
  apply build_dataset_inv in Hds.
  destruct Hds as (_ & Hlon & Halt & _ & Htc & _).
  rewrite Halt, Hlon, Htc. unfold np_full.
  repeat split.
  - apply Forall_forall. intros v Hv. now apply repeat_spec in Hv.
  - now rewrite repeat_length, length_map.
Qed.

(** The file of the short call. *)
Lemma C3_altitude_holds_longitude_witness :
  exists f, In f (fst (Example.soas "20130601 01:00:00" 1800 "out/")) /\
            Forall (fun v => v = Example.np_float32 Example.lon)
                   (altitude (snd f)).
Proof.
  destruct short_call_files as [f Hf]. exists f.
  assert (Hin : In f (fst (Example.soas "20130601 01:00:00" 1800 "out/")))
    by (rewrite Hf; left; reflexivity).
  split; [exact Hin|].
  exact (proj1 (C3_altitude_holds_longitude Example.np_float32 "SOAS-Ground"
                  Example.lat Example.lon Example.alt "20130601 00:00:00"
                  "20130601 01:00:00" 1800 2 "out/" f Hin)).
Defined.

(** C4, as stated (refuted): in the file of the docstring's call, the
    identifier of record 0 is not the padded text of the prefix without
    ["_n"] followed by the record number. *)
Lemma C4_claimed_prefix_refuted :
  ~ (forall f i row,
       In f (fst (Example.soas "20130602 00:00:00" 3600 "")) ->
       nth_error (obspack_id (snd f)) i = Some row ->
       row = id_row (claimed_prefix "SOAS-Ground" "20130601 00:00:00"
                                    "20130602 00:00:00") i).
Proof.
  intros H.
  assert (Hc : match fst (Example.soas "20130602 00:00:00" 3600 "") with
               | f :: _ =>
                   match nth_error (obspack_id (snd f)) 0 with
                   | Some row => nth 37 row "x"%char
                   | None => "y"%char
                   end
               | [] => "z"%char
               end = "_"%char)
    by (vm_compute; reflexivity).
  destruct (fst (Example.soas "20130602 00:00:00" 3600 "")) as [|f l];
    [discriminate|].
  destruct (nth_error (obspack_id (snd f)) 0) as [row|] eqn:Er;
    [|discriminate].
  rewrite (H f 0%nat row (or_introl eq_refl) Er) in Hc.
  vm_compute in Hc. discriminate.
Qed.

(** C4, amended: in every file written, the identifier of record [i]
    (from 0) is the text sitename + "_from_" + start date + "_to_" + end
    date + "_n" + str(i), padded on the right with underscores, and it is
    exactly 200 characters long; the dates are those of the call's window,
    so the prefix is the same in every segment. *)
Theorem C4_identifier_text {pynum float32 : Type}
    (np_float32 : pynum -> float32) (sitename : string) (lat lon alt : pynum)
    (datestart dateend : string) (samplefreq sample_stragety : Z)
    (outpath : string) (f : File float32) (i : nat) (row : list ascii) :
  In f (fst (make_ObsPack_Input_netcdfs np_float32 sitename lat lon alt
               datestart dateend samplefreq sample_stragety outpath)) ->
  nth_error (obspack_id (snd f)) i = Some row ->
  row = list_ascii_of_string
          (Py.ljust
             ((sitename ++ "_from_" ++ hd EmptyString (Py.split_space datestart)
               ++ "_to_" ++ hd EmptyString (Py.split_space dateend) ++ "_n")
              ++ Py.str (Z.of_nat i)) 200 "_") /\
  row = id_row (claimed_prefix sitename datestart dateend ++ "_n") i /\
  List.length row = 200%nat.
Proof.
  intros Hin Hrow. apply written_segment in Hin.
  destruct Hin as (starts & ends & t & s & e & dts & _ & _ & _ & _ & Hds & _).
  apply build_dataset_inv in Hds.
  destruct Hds as (_ & _ & _ & _ & _ & Hids & Hlen).
  assert (Hr : row = id_row (id_prefix sitename datestart dateend) i).
  { rewrite Hids in Hrow. rewrite nth_error_map, nth_error_seq in Hrow.
    destruct (Nat.ltb_spec i (List.length dts)); simpl in Hrow;
      [|discriminate].
    now injection Hrow as <-. }
  assert (Hp : id_prefix sitename datestart dateend
               = (claimed_prefix sitename datestart dateend ++ "_n")%string).
  { unfold id_prefix, claimed_prefix.
    rewrite !append_assoc. reflexivity. }
  split; [exact Hr|]. split; [now rewrite <- Hp|].
  rewrite Forall_forall in Hlen. apply Hlen.
  eapply nth_error_In; eauto.
Qed.

(** Record 2 of the file of the short call. *)
Lemma C4_identifier_text_witness :
  exists f row,
    In f (fst (Example.soas "20130601 01:00:00" 1800 "out/")) /\
    nth_error (obspack_id (snd f)) 2 = Some row /\
    List.length row = 200%nat.
Proof.
  assert (Hc : match fst (Example.soas "20130601 01:00:00" 1800 "out/") with
               | f :: _ =>
                   match nth_error (obspack_id (snd f)) 2 with
                   | Some _ => true
                   | None => false
                   end
               | [] => false
               end = true)
    by (vm_compute; reflexivity).
  pose proof (C4_identifier_text Example.np_float32 "SOAS-Ground"
                Example.lat Example.lon Example.alt "20130601 00:00:00"
                "20130601 01:00:00" 1800 2 "out/") as T.
  fold (Example.soas "20130601 01:00:00" 1800 "out/") in T.
  destruct (fst (Example.soas "20130601 01:00:00" 1800 "out/")) as [|f l];
    [discriminate|].
  destruct (nth_error (obspack_id (snd f)) 2) as [row|] eqn:Hrow;
    [|discriminate].
  exists f, row. split; [now left|]. split; [exact Hrow|].
  exact (proj2 (proj2 (T f 2%nat row (or_introl eq_refl) Hrow))).
Defined.

(** C5: in every file written, the identifiers of the records are pairwise
    distinct and each is exactly 200 characters long.  (A file is written
    only when every prefix + str(i) fits in 200 characters.) *)
Theorem C5_identifiers_distinct {pynum float32 : Type}
    (np_float32 : pynum -> float32) (sitename : string) (lat lon alt : pynum)
    (datestart dateend : string) (samplefreq sample_stragety : Z)
    (outpath : string) (f : File float32) :
  In f (fst (make_ObsPack_Input_netcdfs np_float32 sitename lat lon alt
               datestart dateend samplefreq sample_stragety outpath)) ->
  NoDup (obspack_id (snd f)) /\
  Forall (fun row => List.length row = 200%nat) (obspack_id (snd f)).
Proof.
  intros Hin. apply written_segment in Hin.
  destruct Hin as (starts & ends & t & s & e & dts & _ & _ & _ & _ & Hds & _).
  apply build_dataset_inv in Hds.
  destruct Hds as (_ & _ & _ & _ & _ & Hids & Hlen).
  split; [|exact Hlen].
  rewrite Hids. apply id_rows_NoDup.
Qed.

(** The three identifiers of the file of the short call. *)
Lemma C5_identifiers_distinct_witness :
  exists f, In f (fst (Example.soas "20130601 01:00:00" 1800 "out/")) /\
            NoDup (obspack_id (snd f)).
Proof.
  destruct short_call_files as [f Hf]. exists f.
  assert (Hin : In f (fst (Example.soas "20130601 01:00:00" 1800 "out/")))
    by (rewrite Hf; left; reflexivity).
  split; [exact Hin|].
  exact (proj1 (C5_identifiers_distinct Example.np_float32 "SOAS-Ground"
                  Example.lat Example.lon Example.alt "20130601 00:00:00"
                  "20130601 01:00:00" 1800 2 "out/" f Hin)).
Defined.


(** C6: for a positive frequency, the instants sampled in a segment, and
    so the records of its file, number
    floor((segment_end - segment_start) / frequency) + 1, the difference
    being taken in seconds. *)
Theorem C6_record_count (datestart dateend : string) (samplefreq : Z)
    (starts2Use ends2Use : Series) (t : nat) (s e : Timestamp) :
  0 < samplefreq ->
  day_segments datestart dateend = Ok (starts2Use, ends2Use) ->
  nth_error starts2Use t = Some s ->
  nth_error ends2Use t = Some e ->
  (exists dts,
     date_range_s s e samplefreq = Ok dts /\
     Z.of_nat (List.length dts) = (e - s) / ns_per_s / samplefreq + 1) /\
  (forall (pynum float32 : Type) (np_float32 : pynum -> float32)
          sitename lat lon alt sample_stragety outpath f,
     loop_body np_float32 sitename lat lon alt datestart dateend samplefreq
               sample_stragety outpath starts2Use ends2Use t = Ok f ->
     Z.of_nat (List.length (time_components (snd f)))
     = (e - s) / ns_per_s / samplefreq + 1).
Proof.
  intros Hfreq Hseg Hs He.
  destruct (segment_span _ _ _ _ _ _ _ Hseg Hs He) as [Hlt _].
  destruct (date_range_s_count s e samplefreq Hfreq) as (dts & Hdts & Hlen);
    [lia|].
  split; [eauto|].
  intros pynum float32 np_float32 sitename lat lon alt sample_stragety
         outpath f Hbody.
  apply loop_body_inv in Hbody.
  destruct Hbody as (s' & e' & dts' & Hs' & He' & Hdts' & Hds & _).
  rewrite Hs in Hs'. rewrite He in He'.
  injection Hs' as <-. injection He' as <-.
  rewrite Hdts in Hdts'. injection Hdts' as <-.
  apply build_dataset_inv in Hds.
  destruct Hds as (_ & _ & _ & _ & Htc & _).
  now rewrite Htc, length_map.
Qed.

(** One hour sampled every 1800 s: three instants. *)
Lemma C6_record_count_witness :
  exists dts,
    date_range_s 1370044800000000000 1370048400000000000 1800 = Ok dts /\
    Z.of_nat (List.length dts) = 3.
Proof.
  exact (proj1 (C6_record_count "20130601 00:00:00" "20130601 01:00:00" 1800
                  [1370044800000000000] [1370048400000000000] 0%nat
                  1370044800000000000 1370048400000000000
                  eq_refl ltac:(vm_compute; reflexivity) eq_refl eq_refl)).
Defined.

(** C7, as stated (refuted): with the frequency -3600 the docstring's call
    is not rejected: it returns a file name, and a file is on disk. *)
Lemma C7_negative_frequency_accepted :
  snd (Example.soas "20130602 00:00:00" (-3600) "")
  = Ok ["obspack_SOAS-Ground_freq-3600s.2013-06-01.nc"%string] /\
  List.length (fst (Example.soas "20130602 00:00:00" (-3600) "")) = 1%nat.
Proof.
  split; vm_compute; reflexivity.
Qed.

(** C7, amended: the frequency is not validated.  For a window that
    segments, a zero frequency makes the range expansion of the first
    segment raise ZeroDivisionError before any file is written, and a
    negative frequency is accepted: the generator returns normally, having
    written one file per segment, each without any record. *)
Theorem C7_frequency_not_validated {pynum float32 : Type}
    (np_float32 : pynum -> float32) (sitename : string) (lat lon alt : pynum)
    (datestart dateend : string) (samplefreq sample_stragety : Z)
    (outpath : string) (starts2Use ends2Use : Series) :
  day_segments datestart dateend = Ok (starts2Use, ends2Use) ->
  let run := make_ObsPack_Input_netcdfs np_float32 sitename lat lon alt
               datestart dateend samplefreq sample_stragety outpath in
  (samplefreq = 0 -> run = ([], Raise ZeroDivisionError)) /\
  (samplefreq < 0 ->
   snd run = Ok (map fst (fst run)) /\
   List.length (fst run) = List.length starts2Use /\
   Forall (fun f => time_components (snd f) = [] /\
                    obspack_id (snd f) = [] /\
                    latitude (snd f) = []) (fst run)).
Proof.
  intros Hseg run. unfold run, make_ObsPack_Input_netcdfs. rewrite Hseg.
  destruct (segments_nonempty _ _ _ _ Hseg) as [Hpos _].
  split.
  - intros ->.
    destruct (List.length starts2Use) as [|n] eqn:Hn; [lia|].
    destruct (segment_lookup _ _ _ _ 0%nat Hseg) as (s & e & Hs & He); [lia|].
    cbn [seq for_range]. unfold loop_body at 1, Py.getitem.
    rewrite Hs, He. cbn [bind]. reflexivity.
  - intros Hneg.
    set (g := fun t : nat =>
                ((outpath ++ file_name sitename samplefreq
                                       (nth t starts2Use 0))%string,
                 mk_Dataset (@nil float32) [] [] [] [] [])).
    rewrite (for_range_all_ok _ g).
    + cbn [fst snd app]. rewrite map_map, length_map, length_seq.
      repeat split.
      apply Forall_forall. intros f Hf.
      apply in_map_iff in Hf. destruct Hf as (t & <- & _).
      unfold g. cbn. auto.
    + intros t Ht. apply in_seq in Ht.
      destruct (segment_lookup _ _ _ _ t Hseg) as (s & e & Hs & He); [lia|].
      destruct (segment_span _ _ _ _ _ _ _ Hseg Hs He) as [Hlt _].
      unfold loop_body, Py.getitem. rewrite Hs, He. cbn [bind].
      unfold date_range_s.
      rewrite generate_regular_range_neg
        by (unfold timedelta_seconds, ns_per_s; lia).
      cbn [bind]. unfold g.
      replace (nth t starts2Use 0) with s
        by (symmetry; now apply nth_error_nth).
      reflexivity.
Qed.

(** The docstring's call with the frequency 0. *)
Lemma C7_frequency_not_validated_witness :
  Example.soas "20130602 00:00:00" 0 "out/" = ([], Raise ZeroDivisionError).
Proof.
  exact (proj1 (C7_frequency_not_validated Example.np_float32 "SOAS-Ground"
                  Example.lat Example.lon Example.alt "20130601 00:00:00"
                  "20130602 00:00:00" 0 2 "out/"
                  [1370044800000000000] [1370131199000000000]
                  ltac:(vm_compute; reflexivity)) eq_refl).
Defined.

(** C8, as stated (refuted): the window from "20130601 00:00:00" to
    "20130603 00:00:00" has two segments, and they do not tile the window
    up to its end: the last one stops at 2013-06-02 23:59:59. *)
Lemma C8_tiling_refuted :
  ~ (forall starts ends b e,
       day_segments "20130601 00:00:00" "20130603 00:00:00"
       = Ok (starts, ends) ->
       to_Timestamp "20130601 00:00:00" = Ok b ->
       to_Timestamp "20130603 00:00:00" = Ok e ->
       (2 <= List.length starts)%nat ->
       tiles_window b e starts ends).
Proof.
  intros H.
  assert (Hseg : day_segments "20130601 00:00:00" "20130603 00:00:00"
                 = Ok ([1370044800000000000; 1370131200000000000],
                       [1370131199000000000; 1370217599000000000]))
    by (vm_compute; reflexivity).
  assert (Hb : to_Timestamp "20130601 00:00:00" = Ok 1370044800000000000)
    by (vm_compute; reflexivity).
  assert (He : to_Timestamp "20130603 00:00:00" = Ok 1370217600000000000)
    by (vm_compute; reflexivity).
  destruct (H _ _ _ _ Hseg Hb He (le_n 2)) as (_ & Hlast & _).
  vm_compute in Hlast. discriminate.
Qed.

(** C8, amended: the segments of every window the generator segments are
    contiguous and do not overlap: the first starts at the window's start,
    each next one starts one second after the one before ends, every
    segment ends after it starts, and the last one ends at the window's end
    when the window has a remainder beyond whole days, and one second
    before the window's end when it spans whole days exactly. *)
Theorem C8_segments_contiguous (datestart dateend : string)
    (starts2Use ends2Use : Series) (start endd : datetime) :
  day_segments datestart dateend = Ok (starts2Use, ends2Use) ->
  Datetime.strptime datestart = Ok start ->
  Datetime.strptime dateend = Ok endd ->
  tiles_window (of_datetime start)
               (if seconds (Datetime.sub endd start) =? 0
                then of_datetime endd - SEC else of_datetime endd)
               starts2Use ends2Use /\
  List.length ends2Use = List.length starts2Use /\
  (forall i s e, nth_error starts2Use i = Some s ->
                 nth_error ends2Use i = Some e -> s < e).
Proof.
  intros Hseg Hs He. fold (last_end start endd).
  split; [|split].
  - destruct (day_segments_inv _ _ _ _ Hseg)
      as (start' & endd' & n & Hs' & He' & _ & Hpos & -> & ->).
    rewrite Hs in Hs'. rewrite He in He'.
    injection Hs' as <-. injection He' as <-.
    unfold tiles_window. split; [|split].
    + unfold segment_starts. destruct n; [lia|]. simpl. f_equal. lia.
    + unfold segment_ends. apply getlast_app_last.
    + intros i ei s' Hei Hs'.
      apply segment_starts_nth in Hs'. destruct Hs' as [Hi ->].
      apply segment_ends_nth in Hei; [|assumption].
      destruct Hei as [[_ ->]|[Hl _]]; [|lia]. lia.
  - apply (segments_nonempty _ _ _ _ Hseg).
  - intros i s e Hsi Hei.
    apply (segment_span _ _ _ _ _ _ _ Hseg Hsi Hei).
Qed.

(** The two days from 2013-06-01 to 2013-06-03 00:00:00. *)
Lemma C8_segments_contiguous_witness :
  tiles_window 1370044800000000000 1370217599000000000
    [1370044800000000000; 1370131200000000000]
    [1370131199000000000; 1370217599000000000].
Proof.
  exact (proj1 (C8_segments_contiguous
                  "20130601 00:00:00" "20130603 00:00:00"
                  [1370044800000000000; 1370131200000000000]
                  [1370131199000000000; 1370217599000000000]
                  (mk_datetime 2013 6 1 0 0 0) (mk_datetime 2013 6 3 0 0 0)
                  ltac:(vm_compute; reflexivity)
                  ltac:(vm_compute; reflexivity)
                  ltac:(vm_compute; reflexivity))).
Defined.

Lemma Forall2_map_r {A B} (P : A -> B -> Prop) (g : A -> B) (l : list A) :
  (forall x, In x l -> P x (g x)) -> Forall2 P l (map g l).
Proof.
  induction l as [|x l IH]; simpl; intros H; constructor; auto.
Qed.

(** C9: in every file written, the rows of time_components are, in
    order, the year, month, day, hour, minute and second of the instants
    sampled in the file's segment, and building a Timestamp from the six
    entries of a row gives back the instant it came from. *)
Theorem C9_time_components_round_trip {pynum float32 : Type}
    (np_float32 : pynum -> float32) (sitename : string) (lat lon alt : pynum)
    (datestart dateend : string) (samplefreq sample_stragety : Z)
    (outpath : string) (f : File float32) :
  In f (fst (make_ObsPack_Input_netcdfs np_float32 sitename lat lon alt
               datestart dateend samplefreq sample_stragety outpath)) ->
  exists starts2Use ends2Use t s e dts,
    day_segments datestart dateend = Ok (starts2Use, ends2Use) /\
    nth_error starts2Use t = Some s /\
    nth_error ends2Use t = Some e /\
    date_range_s s e samplefreq = Ok dts /\
    time_components (snd f) = map time_row dts /\
    Forall2 (fun x row => Timestamp_of_row row = Ok x)
            dts (time_components (snd f)).
Proof.
  intros Hin. apply written_segment in Hin.
  destruct Hin
    as (starts & ends & t & s & e & dts & Hseg & Hs & He & Hdts & Hds & _).
  exists starts, ends, t, s, e, dts.
  apply build_dataset_inv in Hds.
  destruct Hds as (_ & _ & _ & _ & Htc & _).
  repeat (split; [assumption|]).
  rewrite Htc. apply Forall2_map_r. intros x Hx.
  destruct (segment_span _ _ _ _ _ _ _ Hseg Hs He) as [_ Hw].
  unfold Timestamp_of_row, time_row.
  apply fields_roundtrip.
  eapply range_whole_seconds; eauto.
Qed.

(** The three rows of the file of the short call. *)
Lemma C9_time_components_round_trip_witness :
  exists f dts,
    In f (fst (Example.soas "20130601 01:00:00" 1800 "out/")) /\
    Forall2 (fun x row => Timestamp_of_row row = Ok x)
            dts (time_components (snd f)).
Proof.
  destruct short_call_files as [f Hf].
  assert (Hin : In f (fst (Example.soas "20130601 01:00:00" 1800 "out/")))
    by (rewrite Hf; left; reflexivity).
  destruct (C9_time_components_round_trip Example.np_float32 "SOAS-Ground"
              Example.lat Example.lon Example.alt "20130601 00:00:00"
              "20130601 01:00:00" 1800 2 "out/" f Hin)
    as (_ & _ & _ & _ & _ & dts & _ & _ & _ & _ & _ & H).
  exists f, dts. split; [exact Hin|exact H].
Defined.

(** C10: in every file written, the six variables are parallel along
    [obs]: latitude, longitude, altitude and CT_sampling_strategy, the rows
    of time_components and the rows of obspack_id all number as many as the
    instants sampled in the file's segment; a row of time_components has
    6 entries and a row of obspack_id has 200. *)
Theorem C10_parallel_variables {pynum float32 : Type}
    (np_float32 : pynum -> float32) (sitename : string) (lat lon alt : pynum)
    (datestart dateend : string) (samplefreq sample_stragety : Z)
    (outpath : string) (f : File float32) :
  In f (fst (make_ObsPack_Input_netcdfs np_float32 sitename lat lon alt
               datestart dateend samplefreq sample_stragety outpath)) ->
  exists starts2Use ends2Use t s e dts,
    day_segments datestart dateend = Ok (starts2Use, ends2Use) /\
    nth_error starts2Use t = Some s /\
    nth_error ends2Use t = Some e /\
    date_range_s s e samplefreq = Ok dts /\
    List.length (latitude (snd f)) = List.length dts /\
    List.length (longitude (snd f)) = List.length dts /\
    List.length (altitude (snd f)) = List.length dts /\
    List.length (CT_sampling_strategy (snd f)) = List.length dts /\
    List.length (time_components (snd f)) = List.length dts /\
    List.length (obspack_id (snd f)) = List.length dts /\
    Forall (fun row => List.length row = 6%nat) (time_components (snd f)) /\
    Forall (fun row => List.length row = 200%nat) (obspack_id (snd f)).
Proof.
  intros Hin. apply written_segment in Hin.
  destruct Hin
    as (starts & ends & t & s & e & dts & Hseg & Hs & He & Hdts & Hds & _).
  exists starts, ends, t, s, e, dts.
  apply build_dataset_inv in Hds.
  destruct Hds as (Hlat & Hlon & Halt & Hct & Htc & Hids & Hlen).
  repeat (split; [assumption|]).
  rewrite Hlat, Hlon, Halt, Hct, Htc. unfold np_full.
  rewrite !repeat_length, length_map.
  repeat (split; [reflexivity|]).
  split; [|split; [|exact Hlen]].
  - rewrite Hids. now rewrite length_map, length_seq.
  - apply Forall_forall. intros row Hrow.
    apply in_map_iff in Hrow. now destruct Hrow as (x & <- & _).
Qed.

(** The file of the short call. *)
Lemma C10_parallel_variables_witness :
  exists f,
    In f (fst (Example.soas "20130601 01:00:00" 1800 "out/")) /\
    List.length (latitude (snd f)) = List.length (obspack_id (snd f)) /\
    List.length (altitude (snd f)) = List.length (time_components (snd f)).
Proof.
  destruct short_call_files as [f Hf].
  assert (Hin : In f (fst (Example.soas "20130601 01:00:00" 1800 "out/")))
    by (rewrite Hf; left; reflexivity).
  destruct (C10_parallel_variables Example.np_float32 "SOAS-Ground"
              Example.lat Example.lon Example.alt "20130601 00:00:00"
              "20130601 01:00:00" 1800 2 "out/" f Hin)
    as (_ & _ & _ & _ & _ & dts & _ & _ & _ & _
        & H1 & _ & H3 & _ & H5 & H6 & _).
  exists f. split; [exact Hin|].
  split; [rewrite H1, H6|rewrite H3, H5]; reflexivity.
Defined.

(** ** Parsed dates and the fields of later instants *)

Module ParseFacts.

Lemma new_inv (y mo d h mi s : Z) (dt : datetime) :
  Datetime.new y mo d h mi s = Ok dt ->
  dt = mk_datetime y mo d h mi s /\
  1 <= y <= 9999 /\ 1 <= mo <= 12 /\ 1 <= d <= _days_in_month y mo /\
  0 <= h <= 23 /\ 0 <= mi <= 59 /\ 0 <= s <= 59.
Proof.
  unfold Datetime.new.
  destruct ((1 <=? y) && (y <=? 9999) && (1 <=? mo) && (mo <=? 12)
            && (1 <=? d) && (d <=? _days_in_month y mo)
            && (0 <=? h) && (h <=? 23) && (0 <=? mi) && (mi <=? 59)
            && (0 <=? s) && (s <=? 59)) eqn:E; [|discriminate].
  intros [= <-]. repeat rewrite andb_true_iff in E.
  repeat rewrite Z.leb_le in E. intuition lia.
Qed.

Lemma digit_ascii (c : ascii) (v : Z) :
  Datetime.digit c = Some v -> is_ascii c = true.
Proof.
  unfold Datetime.digit, is_ascii.
  destruct ((48 <=? Z.of_nat (nat_of_ascii c))
            && (Z.of_nat (nat_of_ascii c) <=? 57)) eqn:E; [|discriminate].
  intros _. apply andb_true_iff in E. destruct E as [_ E].
  apply Z.leb_le in E. apply Nat.ltb_lt. lia.
Qed.

Lemma number_ascii (cs : list ascii) :
  forall acc v, Datetime.number cs acc = Some v ->
                forallb is_ascii cs = true.
Proof.
  induction cs as [|c cs IH]; simpl; intros acc v H; [reflexivity|].
  destruct (Datetime.digit c) as [w|] eqn:Hd; [|discriminate].
  rewrite (digit_ascii _ _ Hd). simpl. eapply IH; eauto.
Qed.

(** What [strptime] accepts: a valid date and time of day, written in
    ASCII. *)
Lemma strptime_inv (s : string) (dt : datetime) :
  Datetime.strptime s = Ok dt ->
  (1 <= year dt <= 9999 /\ 1 <= month dt <= 12 /\
   1 <= day dt <= _days_in_month (year dt) (month dt) /\
   0 <= hour dt <= 23 /\ 0 <= minute dt <= 59 /\ 0 <= second dt <= 59) /\
  forallb is_ascii (list_ascii_of_string s) = true.
Proof.
  unfold Datetime.strptime. intros H.
  destruct (list_ascii_of_string s) as [|c1 l]; [discriminate|].
  do 16 (destruct l as [|? l]; [discriminate|]).
  destruct l; [|discriminate].
  match type of H with
  | (if ?c then _ else _) = _ => destruct c eqn:Esep; [|discriminate]
  end.
  repeat match type of H with
  | match Datetime.number ?cs 0 with _ => _ end = _ =>
      let E := fresh "En" in
      destruct (Datetime.number cs 0) eqn:E; [|discriminate]
  end.
  apply new_inv in H. destruct H as (-> & H). split; [exact H|].
  repeat rewrite andb_true_iff in Esep. destruct Esep as [[E1 E2] E3].
  apply Ascii.eqb_eq in E1, E2, E3. subst.
  apply number_ascii in En, En0, En1, En2, En3, En4.
  cbn [forallb] in *.
  repeat rewrite andb_true_iff in *.
  change (is_ascii " ") with true. change (is_ascii ":") with true.
  intuition.
Qed.

Lemma days_before_year_nonneg (y : Z) : 1 <= y -> 0 <= _days_before_year y.
Proof.
  intros Hy. unfold _days_before_year. cbv zeta.
  pose proof (Z.div_pos (y - 1) 4 ltac:(lia) ltac:(lia)).
  pose proof (Z.div_pos (y - 1) 400 ltac:(lia) ltac:(lia)).
  assert ((y - 1) / 100 <= y - 1)
    by (apply Z.div_le_upper_bound; lia).
  lia.
Qed.

Lemma days_before_month_nonneg (y m : Z) :
  1 <= m <= 12 -> 0 <= _days_before_month y m.
Proof.
  intros Hm. unfold _days_before_month.
  assert (0 <= lookup _DAYS_BEFORE_MONTH m).
  { assert (Hc : In m (zrange 1 12)) by (apply zrange_In; lia).
    cbn in Hc. intuition (subst; cbv; discriminate). }
  destruct ((2 <? m) && _is_leap y); lia.
Qed.

(** The ordinal of a date of year 1 or later is at least 1. *)
Lemma ymd2ord_ge1 (y m d : Z) :
  1 <= y -> 1 <= m <= 12 -> 1 <= d -> 1 <= _ymd2ord y m d.
Proof.
  intros Hy Hm Hd. unfold _ymd2ord.
  pose proof (days_before_year_nonneg y Hy).
  pose proof (days_before_month_nonneg y m Hm). lia.
Qed.

(** The year of an ordinal from 1 on is at least 1. *)
Lemma ord2ymd_year_ge1 (n : Z) :
  1 <= n -> 1 <= fst (fst (_ord2ymd n)).
Proof.
  intros Hn. unfold _ord2ymd, _DI400Y, _DI100Y, _DI4Y.
  set (n0 := n - 1).
  assert (H0 : 0 <= n0) by (unfold n0; lia).
  set (a := n0 / 146097). set (r1 := n0 mod 146097).
  set (b := r1 / 36524). set (r2 := r1 mod 36524).
  set (c := r2 / 1461). set (r3 := r2 mod 1461).
  set (e := r3 / 365). set (r := r3 mod 365).
  assert (Ha : 0 <= a) by (apply Z.div_pos; lia).
  assert (H1 : 0 <= r1) by (apply Z.mod_pos_bound; lia).
  assert (Hb : 0 <= b) by (apply Z.div_pos; lia).
  assert (H2 : 0 <= r2) by (apply Z.mod_pos_bound; lia).
  assert (Hc : 0 <= c) by (apply Z.div_pos; lia).
  assert (H3 : 0 <= r3) by (apply Z.mod_pos_bound; lia).
  assert (He : 0 <= e) by (apply Z.div_pos; lia).
  clearbody a b c e r.
  destruct (Z.eqb_spec e 4) as [->|He4]; cbn [orb].
  - cbn [fst]. lia.
  - destruct (Z.eqb_spec b 4) as [->|Hb4].
    + cbn [fst]. lia.
    + destruct (month_day _ r) as [m d]. cbn [fst]. lia.
Qed.

End ParseFacts.

(** ** Instants of the window and the datasets built from them *)

Module InstantFacts.

Import ParseFacts.

(** From year 1 on, every calendar field of an instant is non-negative,
    so [strftime] prints digits only. *)
Lemma fields_nonneg (x : Timestamp) (f : field) :
  after_year_one x -> 0 <= field_value f x.
Proof.
  unfold after_year_one. intros Hx.
  pose proof (ord2ymd_year_ge1 _ Hx) as Hy.
  pose proof (ord2ymd_spec (x / ns_per_s / 86400 + epoch_ordinal)) as Ho.
  assert (Hs : 0 <= sod x < 86400)
    by (unfold sod; apply Z.mod_pos_bound; lia).
  destruct (hms_decomp _ Hs) as (Hh & Hmi & Hsec & _).
  destruct f; cbn [field_value];
    unfold f_year, f_month, f_day, f_hour, f_minute, f_second, ymd;
    destruct (_ord2ymd (x / ns_per_s / 86400 + epoch_ordinal)) as [[y m] d];
    cbn [fst snd] in *; lia.
Qed.

Lemma column_ok (f : field) (dts : Series) :
  Forall after_year_one dts ->
  column f dts = Ok (map (field_value f) dts).
Proof.
  intros H. unfold column. apply mapM_ok. intros x Hx.
  rewrite Forall_forall in H. unfold strftime.
  apply int_zfill_nonneg. apply fields_nonneg. auto.
Qed.

Section Build.

Context {pynum float32 : Type} (np_float32 : pynum -> float32).

(** From year 1 on, the dataset of a segment is built as soon as its
    identifiers are: nothing else can fail. *)
Lemma build_dataset_eq (sitename : string) (lat lon alt : pynum)
    (datestart dateend : string) (sample_stragety : Z) (dts : Series) :
  Forall after_year_one dts ->
  build_dataset np_float32 sitename lat lon alt datestart dateend
                sample_stragety dts
  = let* ids := fill_ids (id_prefix sitename datestart dateend)
                         (arange_str (List.length dts)) in
    Ok {| latitude := np_full (List.length dts) (np_float32 lat);
          longitude := np_full (List.length dts) (np_float32 lon);
          altitude := np_full (List.length dts) (np_float32 lon);
          time_components := map time_row dts;
          obspack_id := ids;
          CT_sampling_strategy :=
            np_full (List.length dts) sample_stragety |}.
Proof.
  intros H. unfold build_dataset.
  rewrite !(column_ok _ _ H). cbn [bind].
  rewrite (to_numpy_map (field_value fY) (field_value fm) (field_value fd)
                        (field_value fH) (field_value fM) (field_value fS)).
  reflexivity.
Qed.

End Build.

(** An instant at or after a parsed date is in year 1 or later. *)
Lemma after_parsed_date (s : string) (dt : datetime) (x : Timestamp) :
  Datetime.strptime s = Ok dt -> of_datetime dt <= x -> after_year_one x.
Proof.
  intros Hp Hx. apply strptime_inv in Hp.
  destruct Hp as ((Hy & Hm & Hd & Hh & Hmi & Hs) & _).
  unfold after_year_one. rewrite of_datetime_seconds in Hx.
  assert (Hord : 1 <= Datetime.toordinal dt)
    by (unfold Datetime.toordinal; apply ymd2ord_ge1; lia).
  assert (Hsec : 0 <= Datetime.secs_of_day dt)
    by (unfold Datetime.secs_of_day; lia).
  assert (H1 : epoch_seconds dt <= x / ns_per_s).
  { apply Z.div_le_lower_bound; unfold ns_per_s in *; lia. }
  assert (H2 : Datetime.toordinal dt - epoch_ordinal <= x / ns_per_s / 86400).
  { apply Z.div_le_lower_bound; [lia|]. unfold epoch_seconds in H1. lia. }
  lia.
Qed.

(** The instants of a segment: at a positive frequency they run from the
    segment's start in steps of the frequency and stay within the
    segment; at a negative one there are none. *)
Lemma segment_instants (datestart dateend : string)
    (starts2Use ends2Use : Series) (t : nat) (s e : Timestamp)
    (samplefreq : Z) (dts : Series) :
  day_segments datestart dateend = Ok (starts2Use, ends2Use) ->
  nth_error starts2Use t = Some s ->
  nth_error ends2Use t = Some e ->
  date_range_s s e samplefreq = Ok dts ->
  samplefreq <> 0 /\
  (samplefreq < 0 -> dts = []) /\
  (0 < samplefreq ->
   dts = map (fun i => s + Z.of_nat i * stride_of samplefreq)
             (seq 0 (Z.to_nat ((e - s) / stride_of samplefreq + 1))) /\
   0 <= (e - s) / stride_of samplefreq).
Proof.
  intros Hseg Hs He Hd.
  destruct (segment_span _ _ _ _ _ _ _ Hseg Hs He) as [Hlt _].
  unfold date_range_s in Hd. fold (stride_of samplefreq) in Hd.
  split; [|split].
  - intros ->. discriminate.
  - intros Hneg.
    rewrite generate_regular_range_neg in Hd
      by (unfold stride_of, timedelta_seconds, ns_per_s; lia).
    now injection Hd as <-.
  - intros Hpos.
    assert (Hst : 0 < stride_of samplefreq)
      by (unfold stride_of, timedelta_seconds, ns_per_s; lia).
    rewrite generate_regular_range_pos in Hd by assumption.
    injection Hd as <-. split; [reflexivity|].
    apply Z.div_pos; lia.
Qed.

Lemma segment_instants_after (datestart dateend : string)
    (starts2Use ends2Use : Series) (t : nat) (s e : Timestamp)
    (samplefreq : Z) (dts : Series) :
  day_segments datestart dateend = Ok (starts2Use, ends2Use) ->
  nth_error starts2Use t = Some s ->
  nth_error ends2Use t = Some e ->
  date_range_s s e samplefreq = Ok dts ->
  Forall after_year_one dts.
Proof.
  intros Hseg Hs He Hd.
  destruct (segment_instants _ _ _ _ _ _ _ _ _ Hseg Hs He Hd)
    as (Hnz & Hneg & Hpos).
  destruct (day_segments_inv _ _ _ _ Hseg)
    as (start & endd & n & Hps & _ & _ & _ & -> & _).
  apply segment_starts_nth in Hs. destruct Hs as [_ ->].
  destruct (Z.lt_trichotomy samplefreq 0) as [Hlt|[H0|Hgt]]; [|lia|].
  - rewrite (Hneg Hlt). constructor.
  - destruct (Hpos Hgt) as [-> _].
    apply Forall_forall. intros x Hx. apply in_map_iff in Hx.
    destruct Hx as (i & <- & _).
    apply (after_parsed_date _ _ _ Hps).
    unfold stride_of, DAY, timedelta_days, timedelta_seconds, ns_per_s.
    nia.
Qed.

End InstantFacts.

(** ** The text of dates and of file names *)

Module TextFacts.

Lemma uint_string_digits (d : Decimal.uint) (c : ascii) :
  In c (list_ascii_of_string (NilEmpty.string_of_uint d)) ->
  Datetime.digit c <> None.
Proof.
  induction d; simpl; intros H; try tauto;
    destruct H as [<-|H]; auto; discriminate.
Qed.

(** The numeral of a non-negative integer is made of digits. *)
Lemma str_digits (n : Z) (c : ascii) :
  0 <= n -> In c (list_ascii_of_string (Py.str n)) ->
  Datetime.digit c <> None.
Proof.
  intros Hn. unfold Py.str.
  destruct n as [|p|p]; simpl; [| |lia].
  - intros [<-|[]]. discriminate.
  - replace (NilZero.string_of_uint (Pos.to_uint p))
      with (NilEmpty.string_of_uint (Pos.to_uint p))
      by (pose proof (DecimalPos.Unsigned.to_uint_nonnil p);
          now destruct (Pos.to_uint p)).
    apply uint_string_digits.
Qed.

Lemma zfill_digits (n : Z) (w : nat) (c : ascii) :
  0 <= n -> In c (list_ascii_of_string (Py.zfill (Py.str n) w)) ->
  Datetime.digit c <> None.
Proof.
  intros Hn. unfold Py.zfill.
  rewrite list_ascii_app, list_ascii_repeat. intros H.
  apply in_app_or in H. destruct H as [H|H].
  - apply repeat_spec in H. subst. discriminate.
  - now apply str_digits in H.
Qed.

(** Zero-padded numerals of non-negative integers tell them apart. *)
Lemma zfill_inj (a b : Z) (w : nat) :
  0 <= a -> 0 <= b ->
  Py.zfill (Py.str a) w = Py.zfill (Py.str b) w -> a = b.
Proof.
  intros Ha Hb H. pose proof (int_zfill_nonneg a w Ha) as E.
  rewrite H, int_zfill_nonneg in E by assumption. now injection E.
Qed.

Lemma append_inv_head (s a b : string) :
  (s ++ a = s ++ b)%string -> a = b.
Proof.
  induction s as [|c s IH]; simpl; intros H; [exact H|].
  injection H as H. auto.
Qed.

Lemma append_inv_tail (a b s : string) :
  (a ++ s = b ++ s)%string -> a = b.
Proof.
  intros H. apply list_ascii_inj.
  apply (f_equal list_ascii_of_string) in H.
  rewrite !list_ascii_app in H. now apply app_inv_tail in H.
Qed.

(** Two texts cut at the first occurrence of a separator agree piece by
    piece. *)
Lemma first_sep_inj (c : ascii) (a1 : string) :
  forall a2 r1 r2,
    ~ In c (list_ascii_of_string a1) ->
    ~ In c (list_ascii_of_string a2) ->
    (a1 ++ String c r1 = a2 ++ String c r2)%string ->
    a1 = a2 /\ r1 = r2.
Proof.
  induction a1 as [|x a1 IH]; intros [|y a2] r1 r2 H1 H2 E; simpl in *.
  - injection E as E. auto.
  - injection E as E1 _. exfalso. apply H2. now left.
  - injection E as E1 _. exfalso. apply H1. now left.
  - injection E as -> E.
    destruct (IH a2 r1 r2) as [-> ->]; auto.
Qed.

(** [s.split(' ')[0]] is what stands before the first space. *)
Lemma split_space_hd (s1 s2 : string) :
  ~ In " "%char (list_ascii_of_string s1) ->
  hd EmptyString (Py.split_space (s1 ++ String " " s2)) = s1.
Proof.
  induction s1 as [|c s1 IH]; simpl; intros H; [reflexivity|].
  destruct (Ascii.eqb_spec c " ") as [->|Hc]; [tauto|].
  assert (IH' := IH (fun Hin => H (or_intror Hin))).
  destruct (Py.split_space (s1 ++ String " " s2)) as [|h tl];
    simpl in *; now subst.
Qed.


Lemma strftime_no_space (f : field) (t : Timestamp) :
  ~ In " "%char (list_ascii_of_string (strftime f t)).
Proof.
  unfold strftime, Py.zfill.
  rewrite list_ascii_app, list_ascii_repeat. intros H.
  apply in_app_or in H. destruct H as [H|H].
  - apply repeat_spec in H. discriminate.
  - unfold Py.str in H.
    destruct (Z.to_int (field_value f t)) as [d|d]; simpl in H.
    + assert (Hd : In " "%char
                      (list_ascii_of_string (NilEmpty.string_of_uint d))
                   \/ " "%char = "0"%char).
      { destruct d; simpl in *; auto; destruct H as [H|H]; auto. }
      destruct Hd as [Hd|Hd]; [|discriminate].
      now apply uint_string_digits in Hd.
    + destruct H as [H|H]; [discriminate|].
      assert (Hd : In " "%char
                      (list_ascii_of_string (NilEmpty.string_of_uint d))
                   \/ " "%char = "0"%char).
      { destruct d; simpl in *; auto; destruct H as [H|H]; auto. }
      destruct Hd as [Hd|Hd]; [|discriminate].
      now apply uint_string_digits in Hd.
Qed.

(** The date part of the name of a file is the date of the start of its
    segment, [YYYY-MM-DD]. *)
Lemma str_date_part (t : Timestamp) :
  hd EmptyString (Py.split_space (Pd.str t)) = date_text t.
Proof.
  assert (E : Pd.str t
              = (date_text t
                 ++ String " " (strftime fH t ++ ":" ++ strftime fM t
                                ++ ":" ++ strftime fS t))%string).
  { unfold Pd.str, date_text. rewrite !append_assoc. reflexivity. }
  rewrite E. apply split_space_hd.
  unfold date_text. rewrite !list_ascii_app. intros H.
  repeat (apply in_app_or in H; destruct H as [H|H]);
    try (now apply strftime_no_space in H);
    simpl in H; destruct H as [H|[]]; discriminate.
Qed.

Lemma file_path_text (outpath sitename : string) (samplefreq : Z)
    (s : Timestamp) :
  (outpath ++ file_name sitename samplefreq s)%string
  = path_of outpath sitename samplefreq s.
Proof.
  unfold file_name, path_of. now rewrite str_date_part.
Qed.

(** From year 1 on, the date text determines the day. *)
Lemma date_text_inj (s1 s2 : Timestamp) :
  after_year_one s1 -> after_year_one s2 ->
  date_text s1 = date_text s2 ->
  s1 / ns_per_s / 86400 = s2 / ns_per_s / 86400.
Proof.
  intros H1 H2 E. unfold date_text, strftime in E.
  pose proof (fun f => InstantFacts.fields_nonneg s1 f H1) as N1.
  pose proof (fun f => InstantFacts.fields_nonneg s2 f H2) as N2.
  assert (Hdash : forall n w, 0 <= n ->
            ~ In "-"%char (list_ascii_of_string (Py.zfill (Py.str n) w))).
  { intros n w Hn Hin. now apply zfill_digits in Hin. }
  apply first_sep_inj in E; [|apply Hdash; apply N1|apply Hdash; apply N2].
  destruct E as [Ey E].
  apply first_sep_inj in E; [|apply Hdash; apply N1|apply Hdash; apply N2].
  destruct E as [Em Ed].
  apply zfill_inj in Ey, Em, Ed; try apply N1; try apply N2.
  cbn [field_value] in Ey, Em, Ed.
  unfold f_year, f_month, f_day, ymd in Ey, Em, Ed.
  pose proof (ord2ymd_spec (s1 / ns_per_s / 86400 + epoch_ordinal)) as O1.
  pose proof (ord2ymd_spec (s2 / ns_per_s / 86400 + epoch_ordinal)) as O2.
  destruct (_ord2ymd (s1 / ns_per_s / 86400 + epoch_ordinal)) as [[y1 m1] d1].
  destruct (_ord2ymd (s2 / ns_per_s / 86400 + epoch_ordinal)) as [[y2 m2] d2].
  cbn [fst snd] in *. subst.
  destruct O1 as [O1 _]. destruct O2 as [O2 _]. lia.
Qed.

Lemma path_of_inj (outpath sitename : string) (samplefreq : Z)
    (s1 s2 : Timestamp) :
  path_of outpath sitename samplefreq s1
  = path_of outpath sitename samplefreq s2 ->
  date_text s1 = date_text s2.
Proof.
  unfold path_of. intros H.
  apply append_inv_head in H.
  apply (append_inv_head "obspack_") in H.
  apply append_inv_head in H.
  apply (append_inv_head "_freq") in H.
  apply append_inv_head in H.
  apply (append_inv_head "s.") in H.
  now apply append_inv_tail in H.
Qed.

End TextFacts.

(** ** The loop as a whole *)

Module LoopFacts.

Import ParseFacts InstantFacts TextFacts.

Lemma mapM_In {A B} (f : A -> result B) (l : list A) (ys : list B) :
  Py.mapM f l = Ok ys -> forall x, In x l -> exists y, f x = Ok y.
Proof.
  intros H. apply mapM_Forall2 in H.
  induction H as [|x y l0 ys0 Hxy _ IH]; intros z Hz; [destruct Hz|].
  destruct Hz as [<-|Hz]; [eauto|]. now apply IH.
Qed.

Lemma mapM_incl {A B} (f : A -> result B) (l l' : list A) (ys : list B) :
  Py.mapM f l = Ok ys -> incl l' l -> exists ys', Py.mapM f l' = Ok ys'.
Proof.
  intros H Hincl. pose proof (mapM_In _ _ _ H) as Hall.
  clear H. induction l' as [|x l' IH]; simpl; [eauto|].
  destruct (Hall x) as (y & Hy); [apply Hincl; now left|].
  destruct IH as (ys' & Hys'); [intros z Hz; apply Hincl; now right|].
  rewrite Hy, Hys'. simpl. eauto.
Qed.

Lemma mapM_raise_head {A B} (f : A -> result B) (x : A) (l : list A)
    (e : exn) :
  f x = Raise e -> Py.mapM f (x :: l) = Raise e.
Proof. intros H. simpl. now rewrite H. Qed.

Lemma Forall2_map_fst {A B C} (R : A -> B -> Prop) (p : B -> C) (g : A -> C)
    (l : list A) (fs : list B) :
  Forall2 R l fs ->
  (forall t f, In t l -> R t f -> p f = g t) ->
  map p fs = map g l.
Proof.
  intros H. induction H as [|t f l fs Htf _ IH]; simpl; intros Hg;
    [reflexivity|].
  f_equal; [apply Hg; auto|]. apply IH. intros; apply Hg; auto.
Qed.

(** Every segment is at most a day less a second long, lies inside the
    window, and all but the last are exactly that long. *)
Lemma segment_extent (datestart dateend : string)
    (starts2Use ends2Use : Series) (start endd : datetime)
    (t : nat) (s e : Timestamp) :
  day_segments datestart dateend = Ok (starts2Use, ends2Use) ->
  Datetime.strptime datestart = Ok start ->
  Datetime.strptime dateend = Ok endd ->
  nth_error starts2Use t = Some s ->
  nth_error ends2Use t = Some e ->
  s = of_datetime start + Z.of_nat t * DAY /\
  e - s <= DAY - SEC /\
  e <= of_datetime endd /\
  ((S t < List.length starts2Use)%nat -> e - s = DAY - SEC).
Proof.
  intros Hseg Hps Hpe Hs He.
  destruct (day_segments_inv _ _ _ _ Hseg)
    as (start' & endd' & n & Hps' & Hpe' & Hn & Hpos & -> & ->).
  rewrite Hps in Hps'. rewrite Hpe in Hpe'.
  injection Hps' as <-. injection Hpe' as <-.
  rewrite segment_starts_length.
  apply segment_starts_nth in Hs. destruct Hs as [Ht ->].
  split; [reflexivity|].
  destruct (day_count_cases start endd) as (Hr & Hdm & Hsec & Hdc).
  rewrite Hdc in Hn.
  apply segment_ends_nth in He; [|assumption].
  rewrite !of_datetime_seconds.
  destruct He as [[Hi ->]|[Hl ->]].
  - rewrite of_datetime_seconds. repeat split; try lia.
    destruct (Z.eqb_spec
                ((epoch_seconds endd - epoch_seconds start) mod 86400) 0);
      unfold_units; lia.
  - unfold last_end. rewrite Hsec, !of_datetime_seconds.
    assert (Ht' : Z.of_nat t = Z.of_nat n - 1) by lia.
    rewrite Ht'.
    destruct (Z.eqb_spec
                ((epoch_seconds endd - epoch_seconds start) mod 86400) 0);
      repeat split; try (unfold_units; lia).
Qed.

Section Run.

Context {pynum float32 : Type} (np_float32 : pynum -> float32).
Variables (sitename : string) (lat lon alt : pynum).
Variables (datestart dateend : string) (samplefreq sample_stragety : Z).
Variable outpath : string.

Let body := loop_body np_float32 sitename lat lon alt datestart dateend
                      samplefreq sample_stragety outpath.
Let run := make_ObsPack_Input_netcdfs np_float32 sitename lat lon alt
             datestart dateend samplefreq sample_stragety outpath.

(** What the loop leaves on disk and returns, iteration by iteration. *)
Lemma for_range_prefix (bd : nat -> result (File float32)) (ts : list nat) :
  forall written all_files,
  exists fs,
    fst (for_range bd ts written all_files) = (written ++ fs)%list /\
    Forall2 (fun t f => bd t = Ok f) (firstn (List.length fs) ts) fs /\
    (forall paths,
       snd (for_range bd ts written all_files) = Ok paths ->
       List.length fs = List.length ts /\
       paths = (all_files ++ map fst fs)%list) /\
    (forall e,
       snd (for_range bd ts written all_files) = Raise e ->
       exists t, nth_error ts (List.length fs) = Some t /\ bd t = Raise e).
Proof.
  induction ts as [|t ts IH]; intros written all_files; simpl.
  - exists []. rewrite !List.app_nil_r. repeat split.
    + constructor.
    + now injection H as <-.
    + discriminate.
  - destruct (bd t) as [f|e0] eqn:Hb.
    + destruct (IH (written ++ [f])%list (all_files ++ [fst f])%list)
        as (fs & Hw & Hall & Hok & Hraise).
      exists (f :: fs). simpl. repeat split.
      * rewrite Hw, <- List.app_assoc. reflexivity.
      * constructor; assumption.
      * destruct (Hok _ H) as [Hl _]. lia.
      * destruct (Hok _ H) as [_ ->]. now rewrite <- List.app_assoc.
      * exact Hraise.
    + exists []. simpl. rewrite List.app_nil_r. repeat split.
      * constructor.
      * discriminate.
      * discriminate.
      * intros e [= <-]. eauto.
Qed.

(** One iteration, once the segmentation is known: only the range
    expansion and the identifiers can fail. *)
Lemma loop_body_run (starts2Use ends2Use : Series) (t : nat)
    (s e : Timestamp) :
  day_segments datestart dateend = Ok (starts2Use, ends2Use) ->
  nth_error starts2Use t = Some s ->
  nth_error ends2Use t = Some e ->
  body starts2Use ends2Use t
  = let* dts := date_range_s s e samplefreq in
    let* ids := fill_ids (id_prefix sitename datestart dateend)
                         (arange_str (List.length dts)) in
    Ok (path_of outpath sitename samplefreq s,
        {| latitude := np_full (List.length dts) (np_float32 lat);
           longitude := np_full (List.length dts) (np_float32 lon);
           altitude := np_full (List.length dts) (np_float32 lon);
           time_components := map time_row dts;
           obspack_id := ids;
           CT_sampling_strategy :=
             np_full (List.length dts) sample_stragety |}).
Proof.
  intros Hseg Hs He. unfold body, loop_body, Py.getitem.
  rewrite Hs, He. cbn [bind].
  destruct (date_range_s s e samplefreq) as [dts|] eqn:Hd; [|reflexivity].
  cbn [bind].
  rewrite build_dataset_eq
    by (eapply segment_instants_after; eauto).
  destruct (fill_ids _ _); [|reflexivity].
  cbn [bind]. now rewrite file_path_text.
Qed.

(** The paths on disk are the names of the first segments, in order. *)
Lemma written_paths (starts2Use ends2Use : Series) :
  day_segments datestart dateend = Ok (starts2Use, ends2Use) ->
  map fst (fst run)
  = map (path_of outpath sitename samplefreq)
        (firstn (List.length (fst run)) starts2Use).
Proof.
  intros Hseg. unfold run, make_ObsPack_Input_netcdfs. rewrite Hseg.
  fold (body starts2Use ends2Use).
  destruct (for_range_prefix (body starts2Use ends2Use)
              (seq 0 (List.length starts2Use)) [] [])
    as (fs & Hw & Hall & _ & _).
  rewrite Hw. cbn [app].
  rewrite (Forall2_map_fst _ fst
             (fun t => path_of outpath sitename samplefreq
                                (nth t starts2Use 0)) _ _ Hall).
  - rewrite firstn_seq.
    assert (Hlen : (List.length fs <= List.length starts2Use)%nat).
    { apply Forall2_length in Hall. rewrite firstn_seq, length_seq in Hall.
      lia. }
    replace (Nat.min (List.length fs) (List.length starts2Use))
      with (List.length fs) by lia.
    rewrite <- (map_map (fun t => nth t starts2Use 0)).
    f_equal. clear Hall Hw. revert Hlen.
    generalize (List.length fs) as k. clear fs.
    intros k Hk. apply nth_error_ext. intros i.
    rewrite nth_error_map, nth_error_seq, nth_error_firstn.
    destruct (Nat.ltb_spec i k); [|reflexivity]. simpl.
    destruct (nth_error starts2Use i) as [x|] eqn:Ex.
    + now rewrite (nth_error_nth _ _ _ Ex).
    + apply nth_error_None in Ex. lia.
  - intros t f Hin Hb.
    rewrite firstn_seq in Hin. apply in_seq in Hin.
    assert (Ht : (t < List.length starts2Use)%nat) by lia.
    destruct (segment_lookup _ _ _ _ t Hseg Ht) as (s & e & Hs & He).
    rewrite (loop_body_run _ _ _ _ _ Hseg Hs He) in Hb.
    destruct (date_range_s s e samplefreq); [|discriminate].
    cbn [bind] in Hb. destruct (fill_ids _ _); [|discriminate].
    cbn [bind] in Hb. injection Hb as <-. cbn [fst].
    now rewrite (nth_error_nth _ _ _ Hs).
Qed.

End Run.

End LoopFacts.

(** ** Further properties of the generator *)

Import ParseFacts InstantFacts TextFacts LoopFacts.

(** X1: when the generator returns, the list it returns is the list of
    the paths it wrote, one per day segment in chronological order, each
    being outpath + "obspack_" + sitename + "_freq" + str(samplefreq) + "s."
    + the date YYYY-MM-DD of the segment's start + ".nc". *)
Theorem X1_returned_paths {pynum float32 : Type}
    (np_float32 : pynum -> float32) (sitename : string) (lat lon alt : pynum)
    (datestart dateend : string) (samplefreq sample_stragety : Z)
    (outpath : string) (starts2Use ends2Use : Series) (paths : list string) :
  let run := make_ObsPack_Input_netcdfs np_float32 sitename lat lon alt
               datestart dateend samplefreq sample_stragety outpath in
  day_segments datestart dateend = Ok (starts2Use, ends2Use) ->
  snd run = Ok paths ->
  paths = map (path_of outpath sitename samplefreq) starts2Use /\
  map fst (fst run) = paths.
Proof.
  intros run Hseg Hok.
  pose proof (written_paths np_float32 sitename lat lon alt datestart
                dateend samplefreq sample_stragety outpath _ _ Hseg) as Hw.
  fold run in Hw.
  assert (Hlen : List.length (fst run) = List.length starts2Use
                 /\ paths = map fst (fst run)).
  { unfold run, make_ObsPack_Input_netcdfs in *. rewrite Hseg in *.
    match type of Hok with
    | snd (for_range ?bd ?ts [] []) = _ =>
        destruct (for_range_prefix bd ts [] [])
          as (fs & Hfs & _ & Hret & _)
    end.
    destruct (Hret _ Hok) as [Hl ->].
    rewrite Hfs. cbn [app]. rewrite Hl, length_seq. auto. }
  destruct Hlen as [Hlen ->].
  rewrite Hlen, firstn_all in Hw. auto.
Qed.

(** The short call returns the one path it wrote. *)
Lemma X1_returned_paths_witness :
  map fst (fst (Example.soas "20130601 01:00:00" 1800 "out/"))
  = ["out/obspack_SOAS-Ground_freq1800s.2013-06-01.nc"%string].
Proof.
  exact (proj2 (X1_returned_paths Example.np_float32 "SOAS-Ground"
                  Example.lat Example.lon Example.alt "20130601 00:00:00"
                  "20130601 01:00:00" 1800 2 "out/"
                  [1370044800000000000] [1370048400000000000]
                  ["out/obspack_SOAS-Ground_freq1800s.2013-06-01.nc"%string]
                  ltac:(vm_compute; reflexivity)
                  ltac:(vm_compute; reflexivity))).
Defined.

Lemma segment_start_day (start : datetime) (i : nat) :
  (of_datetime start + Z.of_nat i * DAY) / ns_per_s / 86400
  = epoch_seconds start / 86400 + Z.of_nat i.
Proof.
  rewrite of_datetime_seconds.
  replace (epoch_seconds start * ns_per_s + Z.of_nat i * DAY)
    with ((epoch_seconds start + Z.of_nat i * 86400) * ns_per_s)
    by (unfold_units; lia).
  rewrite Z.div_mul by (unfold ns_per_s; lia).
  apply Z.div_add. lia.
Qed.

(** X2: the paths of the files the generator writes are pairwise
    distinct, whatever the arguments and whether or not it raises: no file
    of a run overwrites another. *)
Theorem X2_paths_distinct {pynum float32 : Type}
    (np_float32 : pynum -> float32) (sitename : string) (lat lon alt : pynum)
    (datestart dateend : string) (samplefreq sample_stragety : Z)
    (outpath : string) :
  NoDup (map fst (fst (make_ObsPack_Input_netcdfs np_float32 sitename
                         lat lon alt datestart dateend samplefreq
                         sample_stragety outpath))).
Proof.
  destruct (day_segments datestart dateend) as [[starts ends]|e] eqn:Hseg.
  - rewrite (written_paths np_float32 sitename lat lon alt datestart
               dateend samplefreq sample_stragety outpath _ _ Hseg).
    generalize (List.length
                  (fst (make_ObsPack_Input_netcdfs np_float32 sitename
                          lat lon alt datestart dateend samplefreq
                          sample_stragety outpath))) as k.
    intros k.
    destruct (day_segments_inv _ _ _ _ Hseg)
      as (start & endd & n & Hps & _ & _ & _ & -> & _).
    unfold segment_starts. rewrite firstn_map, firstn_seq, map_map.
    apply NoDup_map_inj; [|apply seq_NoDup].
    intros i j Hij. apply path_of_inj in Hij.
    apply date_text_inj in Hij.
    + rewrite !segment_start_day in Hij. lia.
    + apply (after_parsed_date _ _ _ Hps). unfold_units. lia.
    + apply (after_parsed_date _ _ _ Hps). unfold_units. lia.
  - unfold make_ObsPack_Input_netcdfs. rewrite Hseg. constructor.
Qed.

Lemma stride_quotient (d samplefreq : Z) :
  0 < samplefreq ->
  d / stride_of samplefreq = d / ns_per_s / samplefreq.
Proof.
  intros H. unfold stride_of, timedelta_seconds.
  rewrite Z.div_div by (unfold ns_per_s; lia).
  now rewrite (Z.mul_comm ns_per_s).
Qed.

(** X3: at a positive frequency, every file written is named after the
    start of one segment of the window and holds that segment's samples:
    record 0 is the segment's start, record i lies i times the frequency
    after it, there are floor((end - start) / frequency) + 1 records, and
    none lies after the segment's end. *)
Theorem X3_file_holds_its_segment {pynum float32 : Type}
    (np_float32 : pynum -> float32) (sitename : string) (lat lon alt : pynum)
    (datestart dateend : string) (samplefreq sample_stragety : Z)
    (outpath : string) (f : File float32) :
  0 < samplefreq ->
  In f (fst (make_ObsPack_Input_netcdfs np_float32 sitename lat lon alt
               datestart dateend samplefreq sample_stragety outpath)) ->
  exists starts2Use ends2Use t s e,
    day_segments datestart dateend = Ok (starts2Use, ends2Use) /\
    nth_error starts2Use t = Some s /\
    nth_error ends2Use t = Some e /\
    fst f = path_of outpath sitename samplefreq s /\
    time_components (snd f)
    = map (fun i => time_row (s + Z.of_nat i * (samplefreq * ns_per_s)))
          (seq 0 (Z.to_nat ((e - s) / ns_per_s / samplefreq + 1))) /\
    hd_error (time_components (snd f)) = Some (time_row s) /\
    forall i : nat, Z.of_nat i <= (e - s) / ns_per_s / samplefreq ->
                    s + Z.of_nat i * (samplefreq * ns_per_s) <= e.
Proof.
  intros Hfreq Hin. apply written_segment in Hin.
  destruct Hin
    as (starts & ends & t & s & e & dts & Hseg & Hs & He & Hd & Hds & Hname).
  exists starts, ends, t, s, e.
  destruct (segment_instants _ _ _ _ _ _ _ _ _ Hseg Hs He Hd)
    as (_ & _ & Hpos).
  destruct (Hpos Hfreq) as [Hdts Hq].
  rewrite stride_quotient in Hdts, Hq by assumption.
  apply build_dataset_inv in Hds.
  destruct Hds as (_ & _ & _ & _ & Htc & _).
  assert (Hrows : time_components (snd f)
            = map (fun i => time_row (s + Z.of_nat i * (samplefreq * ns_per_s)))
                  (seq 0 (Z.to_nat ((e - s) / ns_per_s / samplefreq + 1)))).
  { rewrite Htc, Hdts, map_map. reflexivity. }
  repeat (split; [assumption|]).
  split; [now rewrite Hname, file_path_text|].
  split; [exact Hrows|]. split.
  - rewrite Hrows.
    destruct (Z.to_nat ((e - s) / ns_per_s / samplefreq + 1)) as [|m] eqn:Em;
      [lia|].
    cbn [seq map hd_error]. do 2 f_equal. lia.
  - intros i Hi.
    destruct (segment_span _ _ _ _ _ _ _ Hseg Hs He) as [Hlt _].
    rewrite <- stride_quotient in Hi by assumption.
    assert (Hst : 0 < stride_of samplefreq)
      by (unfold stride_of, timedelta_seconds, ns_per_s; lia).
    pose proof (Z.mul_div_le (e - s) (stride_of samplefreq) Hst) as Hle.
    unfold stride_of, timedelta_seconds in *. nia.
Qed.

(** The file of the short call starts at 2013-06-01 00:00:00. *)
Lemma X3_file_holds_its_segment_witness :
  exists f, In f (fst (Example.soas "20130601 01:00:00" 1800 "out/")) /\
            exists s, fst f = path_of "out/" "SOAS-Ground" 1800 s /\
                      hd_error (time_components (snd f))
                      = Some (time_row s).
Proof.
  destruct short_call_files as [f Hf]. exists f.
  assert (Hin : In f (fst (Example.soas "20130601 01:00:00" 1800 "out/")))
    by (rewrite Hf; left; reflexivity).
  split; [exact Hin|].
  destruct (X3_file_holds_its_segment Example.np_float32 "SOAS-Ground"
              Example.lat Example.lon Example.alt "20130601 00:00:00"
              "20130601 01:00:00" 1800 2 "out/" f eq_refl Hin)
    as (_ & _ & _ & s & _ & _ & _ & _ & Hn & _ & Hh & _).
  exists s. split; [exact Hn|exact Hh].
Defined.





(** X11: the number of day segments, hence of files of a run that
    returns, is the length of the window in days rounded up: with D the
    seconds from start to end, there are ceil(D / 86400) segments, and D is
    positive. *)
Theorem X11_segment_count (datestart dateend : string)
    (starts2Use ends2Use : Series) (start endd : datetime) :
  day_segments datestart dateend = Ok (starts2Use, ends2Use) ->
  Datetime.strptime datestart = Ok start ->
  Datetime.strptime dateend = Ok endd ->
  let D := epoch_seconds endd - epoch_seconds start in
  0 < D /\
  Z.of_nat (List.length starts2Use) = (D + 86399) / 86400 /\
  List.length ends2Use = List.length starts2Use.
Proof.
  intros Hseg Hps Hpe D.
  destruct (day_segments_inv _ _ _ _ Hseg)
    as (start' & endd' & n & Hps' & Hpe' & Hn & Hpos & -> & ->).
  rewrite Hps in Hps'. rewrite Hpe in Hpe'.
  injection Hps' as <-. injection Hpe' as <-.
  rewrite segment_starts_length, segment_ends_length by assumption.
  destruct (day_count_cases start endd) as (Hr & Hdm & _ & Hdc).
  fold D in Hr, Hdm, Hdc. rewrite Hdc in Hn.
  assert (Hceil : (D + 86399) / 86400
                  = if D mod 86400 =? 0 then D / 86400 else D / 86400 + 1).
  { destruct (Z.eqb_spec (D mod 86400) 0) as [H0|H0].
    - symmetry. apply (Z.div_unique _ 86400 _ 86399); lia.
    - symmetry. apply (Z.div_unique _ 86400 _ (D mod 86400 - 1)); lia. }
  rewrite Hceil, <- Hn. repeat split; try lia.
  destruct (Z.eqb_spec (D mod 86400) 0); lia.
Qed.

(** Two and a half days make three segments. *)
Lemma X11_segment_count_witness :
  Z.of_nat (List.length [1370044800000000000; 1370131200000000000;
                         1370217600000000000]) = 3.
Proof.
  exact (proj1 (proj2
           (X11_segment_count "20130601 00:00:00" "20130603 12:00:00"
              [1370044800000000000; 1370131200000000000;
               1370217600000000000]
              [1370131199000000000; 1370217599000000000;
               1370260800000000000]
              (mk_datetime 2013 6 1 0 0 0) (mk_datetime 2013 6 3 12 0 0)
              ltac:(vm_compute; reflexivity) eq_refl eq_refl))).
Defined.

(** X12: every segment lies inside the window and is at most one day
    less one second long: it starts a whole number of days after the
    window's start, ends no later than the window's end, and every
    segment but the last is exactly one day less one second long. *)
Theorem X12_segments_inside_window (datestart dateend : string)
    (starts2Use ends2Use : Series) (start endd : datetime)
    (t : nat) (s e : Timestamp) :
  day_segments datestart dateend = Ok (starts2Use, ends2Use) ->
  Datetime.strptime datestart = Ok start ->
  Datetime.strptime dateend = Ok endd ->
  nth_error starts2Use t = Some s ->
  nth_error ends2Use t = Some e ->
  s = of_datetime start + Z.of_nat t * DAY /\
  of_datetime start <= s /\ s < e /\ e <= of_datetime endd /\
  e - s <= DAY - SEC /\
  ((S t < List.length starts2Use)%nat -> e = s + DAY - SEC).
Proof.
  intros Hseg Hps Hpe Hs He.
  destruct (segment_extent _ _ _ _ _ _ _ _ _ Hseg Hps Hpe Hs He)
    as (Hst & Hlen & Hend & Hfull).
  destruct (segment_span _ _ _ _ _ _ _ Hseg Hs He) as [Hlt _].
  repeat split; try assumption.
  - rewrite Hst. unfold_units. lia.
  - intros Hlast. specialize (Hfull Hlast). lia.
Qed.

(** The last of the three segments of two and a half days. *)
Lemma X12_segments_inside_window_witness :
  1370217600000000000 < 1370260800000000000 /\
  1370260800000000000 <= of_datetime (mk_datetime 2013 6 3 12 0 0).
Proof.
  destruct (X12_segments_inside_window
              "20130601 00:00:00" "20130603 12:00:00"
              [1370044800000000000; 1370131200000000000;
               1370217600000000000]
              [1370131199000000000; 1370217599000000000;
               1370260800000000000]
              (mk_datetime 2013 6 1 0 0 0) (mk_datetime 2013 6 3 12 0 0)
              2%nat 1370217600000000000 1370260800000000000
              ltac:(vm_compute; reflexivity) eq_refl eq_refl
              eq_refl eq_refl)
    as (_ & _ & H1 & H2 & _).
  split; [exact H1|exact H2].
Defined.

(** X7: when the window segments, the frequency is positive and the
    identifier prefix alone has 200 characters or more, the first
    identifier does not fit a row of the 200-column array: ValueError is
    raised in the first iteration and no file is written. *)
Theorem X7_identifier_overflow {pynum float32 : Type}
    (np_float32 : pynum -> float32) (sitename : string) (lat lon alt : pynum)
    (datestart dateend : string) (samplefreq sample_stragety : Z)
    (outpath : string) (starts2Use ends2Use : Series) :
  day_segments datestart dateend = Ok (starts2Use, ends2Use) ->
  0 < samplefreq ->
  (200 <= String.length (id_prefix sitename datestart dateend))%nat ->
  make_ObsPack_Input_netcdfs np_float32 sitename lat lon alt
    datestart dateend samplefreq sample_stragety outpath
  = ([], Raise ValueError).
Proof.
  intros Hseg Hfreq Hlong. unfold make_ObsPack_Input_netcdfs. rewrite Hseg.
  destruct (segments_nonempty _ _ _ _ Hseg) as [Hpos _].
  destruct (segment_lookup _ _ _ _ 0%nat Hseg Hpos) as (s & e & Hs & He).
  destruct (List.length starts2Use) as [|n]; [lia|].
  cbn [seq for_range].
  rewrite (loop_body_run np_float32 sitename lat lon alt datestart dateend
             samplefreq sample_stragety outpath _ _ _ _ _ Hseg Hs He).
  destruct (segment_span _ _ _ _ _ _ _ Hseg Hs He) as [Hlt _].
  destruct (date_range_s_count s e samplefreq Hfreq) as (dts & Hd & Hcount);
    [lia|].
  rewrite Hd. cbn [bind].
  assert (Hq : 0 <= (e - s) / ns_per_s / samplefreq).
  { apply Z.div_pos; [|lia]. apply Z.div_pos; unfold ns_per_s; lia. }
  destruct dts as [|x dts]; [simpl in Hcount; lia|].
  cbn [List.length arange_str seq map]. unfold fill_ids.
  rewrite (mapM_raise_head _ _ _ ValueError); [reflexivity|].
  unfold set_row. rewrite ljust_length.
  rewrite <- list_ascii_length, list_ascii_app, length_app,
    !list_ascii_length.
  destruct (Nat.eqb_spec
              (Nat.max (String.length (id_prefix sitename datestart dateend)
                        + String.length (Py.str (Z.of_nat 0))) 200) 200)
    as [E|E]; [|reflexivity].
  exfalso. change (String.length (Py.str (Z.of_nat 0))) with 1%nat in E. lia.
Qed.

(** A site name of 200 characters. *)
Lemma X7_identifier_overflow_witness :
  make_ObsPack_Input_netcdfs Example.np_float32 (Py.repeat_char "a" 200)
    Example.lat Example.lon Example.alt "20130601 00:00:00"
    "20130601 01:00:00" 1800 2 "out/"
  = ([], Raise ValueError).
Proof.
  exact (X7_identifier_overflow Example.np_float32 (Py.repeat_char "a" 200)
           Example.lat Example.lon Example.alt "20130601 00:00:00"
           "20130601 01:00:00" 1800 2 "out/"
           [1370044800000000000] [1370048400000000000]
           ltac:(vm_compute; reflexivity) eq_refl
           ltac:(vm_compute; lia)).
Defined.

Lemma arange_str_incl (m m0 : nat) :
  (m <= m0)%nat -> incl (arange_str m) (arange_str m0).
Proof.
  intros Hle x Hx. unfold arange_str in *.
  apply in_map_iff in Hx. destruct Hx as (i & <- & Hi).
  apply in_map_iff. exists i. split; [reflexivity|].
  apply in_seq in Hi. apply in_seq. lia.
Qed.

Lemma date_range_s_total (s e samplefreq : Z) :
  samplefreq <> 0 -> exists dts, date_range_s s e samplefreq = Ok dts.
Proof.
  intros H. unfold date_range_s, generate_regular_range.
  destruct (Z.eqb_spec (timedelta_seconds samplefreq) 0) as [E|E].
  - unfold timedelta_seconds, ns_per_s in E. lia.
  - eauto.
Qed.

(** X6: the generator raises only before it has written anything: when
    a call ends in an exception, no file is on disk.  (A failure of the
    first iteration is the only one possible: the later segments are no
    longer than the first and number their records the same way.) *)
Theorem X6_raises_before_writing {pynum float32 : Type}
    (np_float32 : pynum -> float32) (sitename : string) (lat lon alt : pynum)
    (datestart dateend : string) (samplefreq sample_stragety : Z)
    (outpath : string) (e : exn) :
  let run := make_ObsPack_Input_netcdfs np_float32 sitename lat lon alt
               datestart dateend samplefreq sample_stragety outpath in
  snd run = Raise e -> fst run = [].
Proof.
  intros run. unfold run, make_ObsPack_Input_netcdfs.
  destruct (day_segments datestart dateend) as [[starts ends]|e0] eqn:Hseg;
    [|reflexivity].
  set (bd := loop_body np_float32 sitename lat lon alt datestart dateend
                       samplefreq sample_stragety outpath starts ends).
  destruct (for_range_prefix bd (seq 0 (List.length starts)) [] [])
    as (fs & Hw & Hall & _ & Hraise).
  intros Hr. rewrite Hw. cbn [app].
  destruct (Hraise _ Hr) as (t & Ht & Hbt). clear Hraise Hr Hw.
  destruct fs as [|f0 fs']; [reflexivity|exfalso].
  rewrite nth_error_seq in Ht.
  destruct (Nat.ltb_spec (List.length (f0 :: fs')) (List.length starts))
    as [Hk|Hk]; [|discriminate].
  rewrite Nat.add_0_l in Ht. injection Ht as <-.
  set (k := List.length (f0 :: fs')) in *.
  assert (Hk1 : (1 <= k)%nat) by (unfold k; simpl; lia).
  assert (Hb0 : bd 0%nat = Ok f0).
  { destruct (List.length starts) as [|n]; [lia|].
    cbn [seq firstn List.length] in Hall. now inversion Hall. }
  clear Hall.
  destruct (day_segments_inv _ _ _ _ Hseg)
    as (start & endd & n & Hps & Hpe & _ & _ & Hst & Hen).
  destruct (segment_lookup _ _ _ _ 0%nat Hseg) as (s0 & e0 & Hs0 & He0);
    [lia|].
  destruct (segment_lookup _ _ _ _ k Hseg Hk) as (sk & ek & Hsk & Hek).
  unfold bd in Hb0, Hbt.
  change (S (List.length fs')) with k in Hbt.
  rewrite (loop_body_run np_float32 sitename lat lon alt datestart dateend
             samplefreq sample_stragety outpath _ _ _ _ _ Hseg Hs0 He0)
    in Hb0.
  rewrite (loop_body_run np_float32 sitename lat lon alt datestart dateend
             samplefreq sample_stragety outpath _ _ _ _ _ Hseg Hsk Hek)
    in Hbt.
  destruct (date_range_s s0 e0 samplefreq) as [dts0|] eqn:Hd0;
    [|discriminate].
  cbn [bind] in Hb0.
  destruct (fill_ids (id_prefix sitename datestart dateend)
                     (arange_str (List.length dts0))) as [ids0|] eqn:Hi0;
    [|discriminate].
  destruct (segment_instants _ _ _ _ _ _ _ _ _ Hseg Hs0 He0 Hd0)
    as (Hnz & Hneg0 & Hpos0).
  destruct (date_range_s_total sk ek samplefreq Hnz) as (dtsk & Hdk).
  rewrite Hdk in Hbt. cbn [bind] in Hbt.
  destruct (segment_instants _ _ _ _ _ _ _ _ _ Hseg Hsk Hek Hdk)
    as (_ & Hnegk & Hposk).
  assert (Hlen : (List.length dtsk <= List.length dts0)%nat).
  { destruct (Z.lt_trichotomy samplefreq 0) as [Hlt|[H0|Hgt]]; [|lia|].
    - rewrite (Hnegk Hlt). simpl. lia.
    - destruct (Hpos0 Hgt) as [-> Hq0]. destruct (Hposk Hgt) as [-> Hqk].
      rewrite !length_map, !length_seq.
      destruct (segment_extent _ _ _ _ _ _ _ _ _ Hseg Hps Hpe Hs0 He0)
        as (_ & _ & _ & Hfull).
      destruct (segment_extent _ _ _ _ _ _ _ _ _ Hseg Hps Hpe Hsk Hek)
        as (_ & Hle & _ & _).
      specialize (Hfull ltac:(lia)).
      assert (Hst' : 0 < stride_of samplefreq)
        by (unfold stride_of, timedelta_seconds, ns_per_s; lia).
      assert ((ek - sk) / stride_of samplefreq
              <= (e0 - s0) / stride_of samplefreq)
        by (apply Z.div_le_mono; lia).
      lia. }
  destruct (mapM_incl _ _ _ _ Hi0 (arange_str_incl _ _ Hlen)) as (idsk & Hik).
  unfold fill_ids in Hbt. rewrite Hik in Hbt. discriminate.
Qed.

(** The call with frequency 0 raises and leaves nothing. *)
Lemma X6_raises_before_writing_witness :
  fst (Example.soas "20130602 00:00:00" 0 "out/") = [].
Proof.
  exact (X6_raises_before_writing Example.np_float32 "SOAS-Ground"
           Example.lat Example.lon Example.alt "20130601 00:00:00"
           "20130602 00:00:00" 0 2 "out/" ZeroDivisionError
           ltac:(vm_compute; reflexivity)).
Defined.






(** X10: when the window starts at midnight and the frequency is
    positive, every record of a file carries the calendar date of the start
    of the file's segment, the date that stands in the file's name: no
    record of a file belongs to another day. *)
Theorem X10_records_on_the_file_date {pynum float32 : Type}
    (np_float32 : pynum -> float32) (sitename : string) (lat lon alt : pynum)
    (datestart dateend : string) (samplefreq sample_stragety : Z)
    (outpath : string) (start : datetime) (f : File float32) :
  Datetime.strptime datestart = Ok start ->
  hour start = 0 -> minute start = 0 -> second start = 0 ->
  0 < samplefreq ->
  In f (fst (make_ObsPack_Input_netcdfs np_float32 sitename lat lon alt
               datestart dateend samplefreq sample_stragety outpath)) ->
  exists s,
    fst f = path_of outpath sitename samplefreq s /\
    Forall (fun row => firstn 3 row = [f_year s; f_month s; f_day s])
           (time_components (snd f)).
Proof.
  intros Hps Hh Hmi Hsec Hfreq Hin. apply written_segment in Hin.
  destruct Hin
    as (starts & ends & t & s & e & dts & Hseg & Hs & He & Hd & Hds & Hname).
  exists s. split; [now rewrite Hname, file_path_text|].
  destruct (day_segments_inv _ _ _ _ Hseg)
    as (start' & endd & n & Hps' & Hpe & _).
  rewrite Hps in Hps'. injection Hps' as <-.
  destruct (segment_extent _ _ _ _ _ _ _ _ _ Hseg Hps Hpe Hs He)
    as (Hst & Hle & _ & _).
  destruct (segment_instants _ _ _ _ _ _ _ _ _ Hseg Hs He Hd)
    as (_ & _ & Hpos).
  destruct (Hpos Hfreq) as [Hdts Hq].
  apply build_dataset_inv in Hds.
  destruct Hds as (_ & _ & _ & _ & Htc & _).
  rewrite Htc. apply Forall_forall. intros row Hrow.
  apply in_map_iff in Hrow. destruct Hrow as (x & <- & Hx).
  rewrite Hdts in Hx. apply in_map_iff in Hx.
  destruct Hx as (i & <- & Hi). apply in_seq in Hi.
  set (x := s + Z.of_nat i * stride_of samplefreq).
  assert (Hstr : 0 < stride_of samplefreq)
    by (unfold stride_of, timedelta_seconds, ns_per_s; lia).
  assert (Hxs : s <= x) by (unfold x; nia).
  assert (Hxe : x <= e).
  { pose proof (Z.mul_div_le (e - s) (stride_of samplefreq) Hstr).
    unfold x. nia. }
  set (d0 := Datetime.toordinal start - epoch_ordinal + Z.of_nat t).
  assert (Hs0 : s = d0 * 86400 * ns_per_s).
  { rewrite Hst, of_datetime_seconds. unfold epoch_seconds, d0,
      Datetime.secs_of_day. rewrite Hh, Hmi, Hsec. unfold_units. lia. }
  assert (Hday : forall y, s <= y <= e -> y / ns_per_s / 86400 = d0).
  { intros y [Hy1 Hy2].
    assert (H1 : d0 * 86400 <= y / ns_per_s).
    { apply Z.div_le_lower_bound; unfold ns_per_s in *; lia. }
    assert (H2 : y / ns_per_s < d0 * 86400 + 86400).
    { apply Z.div_lt_upper_bound; unfold_units; lia. }
    symmetry. apply (Z.div_unique _ 86400 _ (y / ns_per_s - d0 * 86400)).
    - lia.
    - lia. }
  unfold time_row. cbn [firstn].
  unfold f_year, f_month, f_day, ymd.
  rewrite (Hday x) by lia.
  rewrite (Hday s) by lia. reflexivity.
Qed.

(** The three records of the short call are of 2013-06-01. *)
Lemma X10_records_on_the_file_date_witness :
  exists f s,
    In f (fst (Example.soas "20130601 01:00:00" 1800 "out/")) /\
    fst f = path_of "out/" "SOAS-Ground" 1800 s /\
    Forall (fun row => firstn 3 row = [f_year s; f_month s; f_day s])
           (time_components (snd f)).
Proof.
  destruct short_call_files as [f Hf].
  assert (Hin : In f (fst (Example.soas "20130601 01:00:00" 1800 "out/")))
    by (rewrite Hf; left; reflexivity).
  destruct (X10_records_on_the_file_date Example.np_float32 "SOAS-Ground"
              Example.lat Example.lon Example.alt "20130601 00:00:00"
              "20130601 01:00:00" 1800 2 "out/"
              (mk_datetime 2013 6 1 0 0 0) f
              eq_refl eq_refl eq_refl eq_refl eq_refl Hin)
    as (s & Hn & Hrows).
  exists f, s. split; [exact Hin|]. split; [exact Hn|exact Hrows].
Defined.


